(** * LinkedIn post generator: prompt catalogue, reply parsing, text helpers

    A shallow embedding of [src/prompts.py], [src/generator.py] and
    [src/utils.py], and the properties of them that the specification
    states.

    Conventions of the embedding.
    - A Python [str] is a [string]; its characters are read as the code
      points U+0000..U+00FF, one per character.  The library functions below
      ([isspace], [lower], [int], ...) are given on that range.
    - A Python [int] is a [Z]; a [float] is the rational it denotes, every
      float operation rounding its exact result to binary64 ([PyFloat]).
    - A dictionary with string keys is a [gmap string _]; the dictionary the
      engagement parser fills has a fixed set of keys and is a record.
    - A function that can raise returns a [res]; the methods of the
      generator, which talk to the remote service, run in the monad [M],
      whose state is the list of requests sent so far. *)

From Stdlib Require Import ZArith QArith Qpower Qround Lia Lqa List Ascii String DecimalString.
From stdpp Require Import gmap strings.
Import ListNotations.

(** ** Exceptions *)

Inductive exn : Type :=
| ValueError (msg : string)
| KeyError (key : string)
| IndexError (msg : string)
| ZeroDivisionError (msg : string)
| Exception (msg : string).

(** [str(e)]; the key of a [KeyError] is shown between quotes. *)
Definition exn_str (e : exn) : string :=
  match e with
  | KeyError key => "'" +:+ key +:+ "'"
  | ValueError msg | IndexError msg | ZeroDivisionError msg | Exception msg => msg
  end.

(** The outcome of a call: a value, or an exception on its way up. *)
Inductive res (A : Type) : Type :=
| Ok (a : A)
| Raise (e : exn).
Arguments Ok {A} a.
Arguments Raise {A} e.

#[global] Instance res_ret : MRet res := @Ok.
#[global] Instance res_bind : MBind res := fun A B f r =>
  match r with Ok a => f a | Raise e => Raise e end.
#[global] Instance res_fmap : FMap res := fun A B f r =>
  match r with Ok a => Ok (f a) | Raise e => Raise e end.

(** ** Python's [str] methods *)

Module PyStr.

Definition code (c : ascii) : nat := nat_of_ascii c.

(** [c.isspace()]: the white space of [str.split()] and [str.strip()]. *)
Definition isspace (c : ascii) : bool :=
  let n := code c in
  ((9 <=? n) && (n <=? 13)) || ((28 <=? n) && (n <=? 32))
  || (n =? 133) || (n =? 160).

Definition len (s : string) : nat := String.length s.

(** The truth value of a [str]. *)
Definition nonempty (s : string) : bool :=
  match s with EmptyString => false | _ => true end.

(** [s.startswith(p)] *)
Fixpoint startswith (s p : string) {struct p} : bool :=
  match p, s with
  | EmptyString, _ => true
  | String a p', String b s' => if Ascii.eqb a b then startswith s' p' else false
  | String _ _, EmptyString => false
  end.

(** [c in s], for a one-character [c] *)
Fixpoint contains (c : ascii) (s : string) : bool :=
  match s with
  | EmptyString => false
  | String a s' => Ascii.eqb a c || contains c s'
  end.

Fixpoint lstrip (s : string) : string :=
  match s with
  | EmptyString => EmptyString
  | String c s' => if isspace c then lstrip s' else s
  end.

Fixpoint rstrip (s : string) : string :=
  match s with
  | EmptyString => EmptyString
  | String c s' =>
      match rstrip s' with
      | EmptyString => if isspace c then EmptyString else String c EmptyString
      | r => String c r
      end
  end.

Definition strip (s : string) : string := rstrip (lstrip s).

(** [s.split()]: [word] is the token being read. *)
Fixpoint split_from (word s : string) : list string :=
  match s with
  | EmptyString =>
      match word with EmptyString => [] | _ => [word] end
  | String c s' =>
      if isspace c then
        match word with
        | EmptyString => split_from EmptyString s'
        | _ => word :: split_from EmptyString s'
        end
      else split_from (word +:+ String c EmptyString) s'
  end.

Definition split (s : string) : list string := split_from EmptyString s.

(** [s.split(sep)] for a one-character separator, which is what every call
    of the sources passes.  [limit] is [maxsplit]; [None] is no limit. *)
Fixpoint split_sep_from (sep : ascii) (limit : option nat) (piece s : string)
  : list string :=
  match s with
  | EmptyString => [piece]
  | String c s' =>
      match limit with
      | Some 0 => [piece +:+ s]
      | _ =>
          if Ascii.eqb c sep then
            piece :: split_sep_from sep (pred <$> limit) EmptyString s'
          else split_sep_from sep limit (piece +:+ String c EmptyString) s'
      end
  end.

Definition split_sep (sep : ascii) (s : string) : list string :=
  split_sep_from sep None EmptyString s.

Definition split_sep_max (sep : ascii) (maxsplit : nat) (s : string) : list string :=
  split_sep_from sep (Some maxsplit) EmptyString s.

(** [s.replace(a, b)] for one-character [a] and [b] *)
Fixpoint replace (a b : ascii) (s : string) : string :=
  match s with
  | EmptyString => EmptyString
  | String c s' => String (if Ascii.eqb c a then b else c) (replace a b s')
  end.

(** [sep.join(l)] *)
Definition join (sep : string) (l : list string) : string := String.concat sep l.

(** [c.lower()]: the capital letters below U+0100 are A-Z, U+00C0-U+00D6
    and U+00D8-U+00DE, each 32 below its small letter. *)
Definition lower_char (c : ascii) : ascii :=
  let n := code c in
  if ((65 <=? n) && (n <=? 90)) || ((192 <=? n) && (n <=? 214))
     || ((216 <=? n) && (n <=? 222))
  then ascii_of_nat (n + 32) else c.

Fixpoint lower (s : string) : string :=
  match s with
  | EmptyString => EmptyString
  | String c s' => String (lower_char c) (lower s')
  end.

(** [s[:k]]: a negative [k] counts from the end. *)
Fixpoint take (n : nat) (s : string) : string :=
  match n, s with
  | S n', String c s' => String c (take n' s')
  | _, _ => EmptyString
  end.

Definition slice_to (k : Z) (s : string) : string :=
  if (k <? 0)%Z then take (Z.to_nat (Z.of_nat (len s) + k)) s
  else take (Z.to_nat k) s.

(** [l[-1]] *)
Definition last_item (l : list string) : option string := List.last (Some <$> l) None.

(** *** [int(s)]

    White space around the literal is dropped ([int] does not count
    U+001C..U+001F as white space), then comes an optional sign and decimal
    digits, single underscores allowed between digits.  [None] stands for
    the [ValueError], which the interpreter also raises for a literal of
    more than 4300 digits. *)

Definition int_isspace (c : ascii) : bool :=
  let n := code c in
  ((9 <=? n) && (n <=? 13)) || (n =? 32) || (n =? 133) || (n =? 160).

Fixpoint int_lstrip (s : string) : string :=
  match s with
  | EmptyString => EmptyString
  | String c s' => if int_isspace c then int_lstrip s' else s
  end.

Fixpoint int_rstrip (s : string) : string :=
  match s with
  | EmptyString => EmptyString
  | String c s' =>
      match int_rstrip s' with
      | EmptyString => if int_isspace c then EmptyString else String c EmptyString
      | r => String c r
      end
  end.

Definition digit (c : ascii) : option Z :=
  let n := code c in
  if (48 <=? n) && (n <=? 57) then Some (Z.of_nat (n - 48)) else None.

(** [after_digit] tells whether the character just read was a digit. *)
Fixpoint int_digits (acc : Z) (after_digit : bool) (s : string) : option Z :=
  match s with
  | EmptyString => if after_digit then Some acc else None
  | String c s' =>
      if Ascii.eqb c "_"%char then
        if after_digit then int_digits acc false s' else None
      else
        match digit c with
        | Some d => int_digits (10 * acc + d) true s'
        | None => None
        end
  end.

(** The interpreter converts no string of more than 4300 digits, the default
    of [sys.get_int_max_str_digits()], which the program does not change: it
    counts the digits of the literal, leading zeros too, the sign, the
    underscores and the white space around it apart, and raises [ValueError]
    beyond the limit. *)
Definition int_max_str_digits : nat := 4300.

Fixpoint count_digits (s : string) : nat :=
  match s with
  | EmptyString => 0
  | String c s' =>
      match digit c with
      | Some _ => S (count_digits s')
      | None => count_digits s'
      end
  end.

Definition int_literal (ds : string) : option Z :=
  if (int_max_str_digits <? count_digits ds)%nat then None
  else int_digits 0 false ds.

Definition int (s : string) : option Z :=
  match int_rstrip (int_lstrip s) with
  | String "+"%char ds => int_literal ds
  | String "-"%char ds => Z.opp <$> int_literal ds
  | ds => int_literal ds
  end.

(** [str(n)] for an [int] *)
Definition str_of_int (n : Z) : string := NilZero.string_of_int (Z.to_int n).

(** [c.isdigit()]: the digits below U+0100 are 0-9 and the superscripts
    U+00B2, U+00B3 and U+00B9. *)
Definition isdigit (c : ascii) : bool :=
  let n := code c in
  ((48 <=? n) && (n <=? 57)) || (n =? 178) || (n =? 179) || (n =? 185).

(** The class [\w] of [re] on a [str]: the letters and numbers below U+0100,
    and the underscore. *)
Definition isword (c : ascii) : bool :=
  let n := code c in
  ((48 <=? n) && (n <=? 57)) || ((65 <=? n) && (n <=? 90)) || (n =? 95)
  || ((97 <=? n) && (n <=? 122)) || (n =? 170) || (n =? 178) || (n =? 179)
  || (n =? 181) || (n =? 185) || (n =? 186) || ((188 <=? n) && (n <=? 190))
  || ((192 <=? n) && (n <=? 214)) || ((216 <=? n) && (n <=? 246))
  || ((248 <=? n) && (n <=? 255)).

(** [s.strip(chars)] *)
Fixpoint lstrip_chars (chars s : string) : string :=
  match s with
  | EmptyString => EmptyString
  | String c s' => if contains c chars then lstrip_chars chars s' else s
  end.

Fixpoint rstrip_chars (chars s : string) : string :=
  match s with
  | EmptyString => EmptyString
  | String c s' =>
      match rstrip_chars chars s' with
      | EmptyString => if contains c chars then EmptyString else String c EmptyString
      | r => String c r
      end
  end.

Definition strip_chars (chars s : string) : string :=
  rstrip_chars chars (lstrip_chars chars s).

(** [s.replace(a, "")] for a one-character [a] *)
Fixpoint remove (a : ascii) (s : string) : string :=
  match s with
  | EmptyString => EmptyString
  | String c s' => if Ascii.eqb c a then remove a s' else String c (remove a s')
  end.

(** [l[:k]] on a list: a negative [k] counts from the end. *)
Definition list_slice_to {A} (k : Z) (l : list A) : list A :=
  if (k <? 0)%Z then firstn (Z.to_nat (Z.of_nat (length l) + k)) l
  else firstn (Z.to_nat k) l.

(** [re.sub(r"\s+", " ", s)]: every run of white space becomes one space;
    [in_run] tells whether the character before was white space. *)
Fixpoint sub_spaces_from (in_run : bool) (s : string) : string :=
  match s with
  | EmptyString => EmptyString
  | String c s' =>
      if isspace c then
        if in_run then sub_spaces_from true s'
        else String " " (sub_spaces_from true s')
      else String c (sub_spaces_from false s')
  end.

Definition sub_spaces (s : string) : string := sub_spaces_from false s.

(** [re.findall(r"#(\w+)", s)]: [tag] is the group being read after a [#],
    [None] outside a match.  A [#] is no word character, so it ends the
    group it follows and can open the next match. *)
Fixpoint findall_hashtags_from (tag : option string) (s : string) : list string :=
  let found :=
    match tag with
    | Some (String c t) => [String c t]
    | _ => []
    end in
  match s with
  | EmptyString => found
  | String c s' =>
      match tag with
      | Some t =>
          if isword c then findall_hashtags_from (Some (t +:+ String c EmptyString)) s'
          else if Ascii.eqb c "#" then found ++ findall_hashtags_from (Some EmptyString) s'
          else found ++ findall_hashtags_from None s'
      | None =>
          if Ascii.eqb c "#" then findall_hashtags_from (Some EmptyString) s'
          else findall_hashtags_from None s'
      end
  end.

Definition findall_hashtags (s : string) : list string := findall_hashtags_from None s.

End PyStr.


(** ** [str.format]

    [template.format] called with keyword arguments only, for the replacement
    fields the catalogue uses: a field is a keyword name in braces, and a
    doubled brace stands for the brace itself.  A name that is no keyword is
    a [KeyError], an empty or numbered field an [IndexError] (there is no
    positional argument), a brace left alone a [ValueError].  A field with a
    conversion, a format specification, an attribute or an index, none of
    which the catalogue has, is outside the model, which refuses it. *)

Module PyFormat.

Inductive state : Type :=
| Text
| Opened
| Field (name : string)
| Closed.

Definition field_syntax (c : ascii) : bool :=
  Ascii.eqb c "!"%char || Ascii.eqb c ":"%char || Ascii.eqb c "."%char
  || Ascii.eqb c "["%char.

Fixpoint all_digits (s : string) : bool :=
  match s with
  | EmptyString => true
  | String c s' => bool_decide (is_Some (PyStr.digit c)) && all_digits s'
  end.

Definition lookup_field (kwargs : gmap string string) (name : string) : res string :=
  if all_digits name then
    Raise (IndexError ("Replacement index " +:+ (if name is EmptyString then "0" else name)
                       +:+ " out of range for positional args tuple"))
  else match kwargs !! name with
       | Some v => Ok v
       | None => Raise (KeyError name)
       end.

Fixpoint format_in (st : state) (kwargs : gmap string string) (s : string)
  : res string :=
  match s with
  | EmptyString =>
      match st with
      | Text => Ok EmptyString
      | Opened => Raise (ValueError "Single '{' encountered in format string")
      | Field _ => Raise (ValueError "expected '}' before end of string")
      | Closed => Raise (ValueError "Single '}' encountered in format string")
      end
  | String c s' =>
      match st with
      | Text =>
          if Ascii.eqb c "{"%char then format_in Opened kwargs s'
          else if Ascii.eqb c "}"%char then format_in Closed kwargs s'
          else String c <$> format_in Text kwargs s'
      | Opened =>
          if Ascii.eqb c "{"%char then String c <$> format_in Text kwargs s'
          else if Ascii.eqb c "}"%char then
            v ← lookup_field kwargs EmptyString; String.append v <$> format_in Text kwargs s'
          else if field_syntax c then Raise (ValueError "field syntax outside the model")
          else format_in (Field (String c EmptyString)) kwargs s'
      | Field name =>
          if Ascii.eqb c "}"%char then
            v ← lookup_field kwargs name; String.append v <$> format_in Text kwargs s'
          else if Ascii.eqb c "{"%char then
            Raise (ValueError "unexpected '{' in field name")
          else if field_syntax c then Raise (ValueError "field syntax outside the model")
          else format_in (Field (name +:+ String c EmptyString)) kwargs s'
      | Closed =>
          if Ascii.eqb c "}"%char then String c <$> format_in Text kwargs s'
          else Raise (ValueError "Single '}' encountered in format string")
      end
  end.

Definition format (template : string) (kwargs : gmap string string) : res string :=
  format_in Text kwargs template.

End PyFormat.

(** ** Dictionaries

    [d[key]] raises [KeyError] for a key that is absent; [key in d] is
    [is_Some (d !! key)]. *)

Definition dict_get {A} (d : gmap string A) (key : string) : res A :=
  match d !! key with
  | Some v => Ok v
  | None => Raise (KeyError key)
  end.

(** ** The prompt catalogue ([src/prompts.py]) *)

Module Prompts.

Definition SYSTEM_PROMPT : string :=
"You are an expert LinkedIn content creator with years of experience in crafting 
engaging, professional posts that drive high engagement. You understand LinkedIn's algorithm, 
best practices for professional networking, and how to write compelling content that resonates 
with professionals across various industries.".

Definition POST_GENERATION_PROMPTS : gmap string string := {[
"professional" :=
"Create a professional LinkedIn post about: {topic}

Requirements:
- Length: {length} (Short: 2-4 lines, Medium: 5-8 lines, Long: 10-15 lines)
- Tone: Professional, authoritative, and insightful
- Include relevant industry terminology
- Start with a strong hook
- End with a thought-provoking question or call-to-action
- Use line breaks for readability
- NO hashtags in the main text

Write the post now:";

"casual" :=
"Create a casual but professional LinkedIn post about: {topic}

Requirements:
- Length: {length} (Short: 2-4 lines, Medium: 5-8 lines, Long: 10-15 lines)
- Tone: Friendly, conversational, relatable
- Use simple language and personal anecdotes
- Start with a relatable hook
- Add 1-2 relevant emojis (use sparingly)
- End with an engaging question
- Use line breaks for readability
- NO hashtags in the main text

Write the post now:";

"motivational" :=
"Create an inspiring, motivational LinkedIn post about: {topic}

Requirements:
- Length: {length} (Short: 2-4 lines, Medium: 5-8 lines, Long: 10-15 lines)
- Tone: Uplifting, inspiring, encouraging
- Include a powerful message or lesson
- Use storytelling elements
- Start with an attention-grabbing statement
- End with an inspiring call-to-action
- Use line breaks for readability
- Add 1-2 relevant emojis
- NO hashtags in the main text

Write the post now:";

"educational" :=
"Create an educational LinkedIn post about: {topic}

Requirements:
- Length: {length} (Short: 2-4 lines, Medium: 5-8 lines, Long: 10-15 lines)
- Tone: Informative, authoritative, helpful
- Share valuable insights or knowledge
- Use bullet points or numbered lists if appropriate
- Include actionable tips or key takeaways
- Start with a value proposition
- End with an invitation to discuss or share
- Use line breaks for readability
- NO hashtags in the main text

Write the post now:";

"storytelling" :=
"Create a compelling story-based LinkedIn post about: {topic}

Requirements:
- Length: {length} (Short: 2-4 lines, Medium: 5-8 lines, Long: 10-15 lines)
- Tone: Narrative, engaging, personal
- Follow a story arc (beginning, middle, end)
- Include specific details and emotions
- Make it relatable and authentic
- Start with a hook that draws readers in
- End with a lesson or reflection
- Use line breaks for readability
- Add 1-2 relevant emojis
- NO hashtags in the main text

Write the post now:";

"thought-leadership" :=
"Create a thought-leadership LinkedIn post about: {topic}

Requirements:
- Length: {length} (Short: 2-4 lines, Medium: 5-8 lines, Long: 10-15 lines)
- Tone: Authoritative, visionary, intellectually stimulating
- Share unique insights or perspectives
- Challenge conventional thinking
- Use data or trends if relevant
- Start with a bold statement or question
- End with a forward-looking perspective
- Use line breaks for readability
- NO hashtags in the main text

Write the post now:"
]}.

Definition HASHTAG_PROMPT : string :=
"Generate 8-10 relevant and trending LinkedIn hashtags for this post topic: {topic}

Requirements:
- Mix of popular hashtags (100k+ followers) and niche hashtags (10k-50k followers)
- Relevant to the topic and professional context
- Include industry-specific hashtags
- Format: Return ONLY the hashtags separated by spaces, starting with #
- Example format: #Marketing #DigitalMarketing #ContentStrategy

Generate hashtags now:".

Definition HOOK_GENERATION_PROMPT : string :=
"Generate 3 attention-grabbing opening hooks for a LinkedIn post about: {topic}

Each hook should be:
- Maximum 1-2 lines
- Immediately engaging
- Use one of these techniques: question, bold statement, surprising fact, or personal confession
- Professional yet captivating

Format:
Hook 1: [first hook]
Hook 2: [second hook]
Hook 3: [third hook]

Generate hooks now:".

Definition REFINEMENT_PROMPTS : gmap string string := {[
"make_shorter" :=
"Rewrite this LinkedIn post to be shorter while keeping the core message:

Original post:
{post}

Requirements:
- Cut length by 30-40%
- Keep the main message and impact
- Maintain readability
- NO hashtags

Shortened post:";

"make_longer" :=
"Expand this LinkedIn post with more details and depth:

Original post:
{post}

Requirements:
- Add relevant details, examples, or insights
- Increase length by 40-50%
- Maintain flow and engagement
- NO hashtags

Expanded post:";

"add_storytelling" :=
"Rewrite this LinkedIn post using storytelling elements:

Original post:
{post}

Requirements:
- Add narrative structure
- Include personal or relatable elements
- Make it more engaging
- Maintain the core message
- NO hashtags

Rewritten post:";

"more_professional" :=
"Make this LinkedIn post more professional and polished:

Original post:
{post}

Requirements:
- Elevate the language
- Add industry credibility
- Remove overly casual elements
- Maintain authenticity
- NO hashtags

Professional version:";

"add_cta" :=
"Add a compelling call-to-action to this LinkedIn post:

Original post:
{post}

Requirements:
- Add an engaging CTA at the end
- Encourage comments, shares, or discussion
- Make it feel natural
- NO hashtags

Post with CTA:"
]}.

Definition POST_TYPE_PROMPTS : gmap string string := {[
"announcement" :=
"Create a LinkedIn announcement post about: {topic}

This should announce news, updates, or achievements in a professional and exciting way.
Length: {length}
Tone: {tone}

Include:
- Clear announcement
- Key details
- Why it matters
- Call to action

NO hashtags in the main text.
Write the post:";

"tips" :=
"Create a LinkedIn tips/advice post about: {topic}

Share actionable tips or best practices.
Length: {length}
Tone: {tone}

Format as:
- Introduction
- 3-5 numbered tips
- Quick summary
- Engagement question

NO hashtags in the main text.
Write the post:";

"question" :=
"Create a LinkedIn discussion post with a thought-provoking question about: {topic}

Length: {length}
Tone: {tone}

Include:
- Brief context (2-3 lines)
- Main question that sparks discussion
- Why this matters
- Invitation to share thoughts

NO hashtags in the main text.
Write the post:";

"achievement" :=
"Create a LinkedIn post celebrating an achievement related to: {topic}

Length: {length}
Tone: {tone}

Include:
- The achievement
- Brief journey/context
- Gratitude or lesson learned
- Humble brag done right

NO hashtags in the main text.
Write the post:";

"industry_insight" :=
"Create a LinkedIn post sharing industry insights about: {topic}

Length: {length}
Tone: {tone}

Include:
- Current trend or observation
- Your analysis or perspective
- What it means for professionals
- Engaging question

NO hashtags in the main text.
Write the post:"
]}.

Definition ENGAGEMENT_SCORE_PROMPT : string :=
"Analyze this LinkedIn post and provide an engagement prediction score:

Post:
{post}

Evaluate based on:
1. Hook quality (0-25 points): Is the opening line attention-grabbing?
2. Content value (0-25 points): Does it provide value, insights, or entertainment?
3. Readability (0-20 points): Line breaks, length, structure
4. Call-to-action (0-15 points): Does it encourage engagement?
5. Authenticity (0-15 points): Does it feel genuine and relatable?

Respond in this format only:
Hook: [score]/25 - [brief reason]
Content: [score]/25 - [brief reason]
Readability: [score]/20 - [brief reason]
CTA: [score]/15 - [brief reason]
Authenticity: [score]/15 - [brief reason]
Total: [total]/100
Prediction: [Poor/Fair/Good/Excellent]".

(** [get_post_prompt(tone, topic, length, post_type="general")] *)
Definition get_post_prompt (tone topic length : string) (post_type : string) : res string :=
  if bool_decide (post_type <> "general") && bool_decide (is_Some (POST_TYPE_PROMPTS !! post_type)) then
    template ← dict_get POST_TYPE_PROMPTS post_type;
    PyFormat.format template {[ "topic" := topic; "length" := length; "tone" := tone ]}
  else if bool_decide (is_Some (POST_GENERATION_PROMPTS !! PyStr.lower tone)) then
    template ← dict_get POST_GENERATION_PROMPTS (PyStr.lower tone);
    PyFormat.format template {[ "topic" := topic; "length" := length ]}
  else
    (* Default to professional if tone not found *)
    template ← dict_get POST_GENERATION_PROMPTS "professional";
    PyFormat.format template {[ "topic" := topic; "length" := length ]}.

Definition get_hashtag_prompt (topic : string) : res string :=
  PyFormat.format HASHTAG_PROMPT {[ "topic" := topic ]}.

Definition get_hook_prompt (topic : string) : res string :=
  PyFormat.format HOOK_GENERATION_PROMPT {[ "topic" := topic ]}.

(** The result is [None] for a refinement type that is no key. *)
Definition get_refinement_prompt (refinement_type post : string) : res (option string) :=
  if bool_decide (is_Some (REFINEMENT_PROMPTS !! refinement_type)) then
    template ← dict_get REFINEMENT_PROMPTS refinement_type;
    Some <$> PyFormat.format template {[ "post" := post ]}
  else Ok None.

Definition get_engagement_score_prompt (post : string) : res string :=
  PyFormat.format ENGAGEMENT_SCORE_PROMPT {[ "post" := post ]}.

End Prompts.

(** ** Python's [float]

    A float is the rational it denotes.  An operation computes its exact
    result and rounds it to binary64: to the nearest multiple of [2^e], [e]
    being 52 below the binary exponent of the result and no less than
    [-1074] (the subnormal range), a tie going to the even multiple.  The
    results of the operations modelled here stay far below the overflow
    threshold, which a [str]'s length and a date's range keep out of reach,
    so there is no infinity. *)

Module PyFloat.

Local Open Scope Q_scope.

Definition pow2 (e : Z) : Q := Qpower 2 e.

(** The binary exponent of [n/d]: the [k] with [2^k <= n/d < 2^(k+1)]. *)
Definition ilog2 (n d : positive) : Z :=
  let k := (Z.log2 (Zpos n) - Z.log2 (Zpos d))%Z in
  if Qle_bool (pow2 k) (Zpos n # d) then k else (k - 1)%Z.

(** Round half to even. *)
Definition rne (x : Q) : Z :=
  let f := Qfloor x in
  match Qcompare (x - inject_Z f) (1 # 2) with
  | Lt => f
  | Gt => (f + 1)%Z
  | Eq => if Z.even f then f else (f + 1)%Z
  end.

Definition exponent (n d : positive) : Z := Z.max (ilog2 n d - 52) (-1074).

Definition round_pos (n d : positive) : Q :=
  let e := exponent n d in
  Qred (inject_Z (rne ((Zpos n # d) / pow2 e)) * pow2 e).

Definition round (x : Q) : Q :=
  match Qnum x with
  | Z0 => 0
  | Zpos n => round_pos n (Qden x)
  | Zneg n => - round_pos n (Qden x)
  end.

(** [float(n)] for an [int] *)
Definition of_int (n : Z) : Q := round (inject_Z n).

(** [a / b] for two [int]s, which Python rounds once, from the exact
    quotient; [b] is not zero. *)
Definition int_truediv (a b : Z) : Q := round (inject_Z a / inject_Z b).

Definition mul (x y : Q) : Q := round (x * y).

(** [x / y], [y] not zero *)
Definition div (x y : Q) : Q := round (x / y).

(** [int(x)]: towards zero *)
Definition to_int (x : Q) : Z := Z.quot (Qnum x) (Zpos (Qden x)).

End PyFloat.

(** ** [datetime]

    What [get_relative_time] uses of it: [strptime] with the format of the
    database's timestamps, and the difference of two naive datetimes. *)

Module PyDatetime.

Local Open Scope Z_scope.

Record datetime : Type := {
  year : Z; month : Z; day : Z;
  hour : Z; minute : Z; second : Z; microsecond : Z
}.

Definition is_leap (y : Z) : bool :=
  (y mod 4 =? 0) && (negb (y mod 100 =? 0) || (y mod 400 =? 0)).

Definition days_in_month (y m : Z) : Z :=
  if m =? 2 then (if is_leap y then 29 else 28)
  else if (m =? 4) || (m =? 6) || (m =? 9) || (m =? 11) then 30
  else 31.

Definition days_before_year (y : Z) : Z :=
  let y := y - 1 in y * 365 + y / 4 - y / 100 + y / 400.

Fixpoint days_in_months (y : Z) (months : nat) : Z :=
  match months with
  | O => 0
  | S k => days_in_months y k + days_in_month y (Z.of_nat (S k))
  end.

Definition days_before_month (y m : Z) : Z := days_in_months y (Z.to_nat (m - 1)).

(** The ordinal of a date, 1 January of year 1 being day 1. *)
Definition ymd2ord (y m d : Z) : Z :=
  days_before_year y + days_before_month y m + d.

(** The checks of the [datetime] constructor. *)
Definition valid (dt : datetime) : bool :=
  (1 <=? year dt) && (year dt <=? 9999)
  && (1 <=? month dt) && (month dt <=? 12)
  && (1 <=? day dt) && (day dt <=? days_in_month (year dt) (month dt))
  && (0 <=? hour dt) && (hour dt <=? 23)
  && (0 <=? minute dt) && (minute dt <=? 59)
  && (0 <=? second dt) && (second dt <=? 59)
  && (0 <=? microsecond dt) && (microsecond dt <=? 999999).

Definition to_microseconds (dt : datetime) : Z :=
  (((ymd2ord (year dt) (month dt) (day dt) * 24 + hour dt) * 60 + minute dt) * 60
   + second dt) * 1000000 + microsecond dt.

(** [a - b], a [timedelta], as the number of microseconds it holds. *)
Definition sub (a b : datetime) : Z := to_microseconds a - to_microseconds b.

(** [td.total_seconds()] *)
Definition total_seconds (td : Z) : Q := PyFloat.int_truediv td 1000000.

(** *** [strptime(s, "%Y-%m-%d %H:%M:%S")]

    [strptime] turns the format into the regular expression
    [(\d\d\d\d)-(1[0-2]|0[1-9]|[1-9])-(3[0-1]|[1-2]\d|0[1-9]|[1-9]| [1-9])\s+(2[0-3]|[0-1]\d|\d):([0-5]\d|\d):(6[0-1]|[0-5]\d|\d)],
    matches it at the start of [s], refuses text left after the match, and
    builds the [datetime], whose constructor checks the ranges.  A matcher
    below takes the rest of the expression as the continuation [k], so that
    the alternatives of a group are tried in order until the rest
    matches. *)

Definition in_range (lo hi c : ascii) : bool :=
  (PyStr.code lo <=? PyStr.code c)%nat && (PyStr.code c <=? PyStr.code hi)%nat.

Definition is_digit : ascii -> bool := in_range "0" "9".
Definition is_char (a : ascii) (c : ascii) : bool := Ascii.eqb a c.

(** The characters of [s] that the classes match, one each, and what follows. *)
Fixpoint classes (cs : list (ascii -> bool)) (s : string) : option (string * string) :=
  match cs, s with
  | [], _ => Some (EmptyString, s)
  | c :: cs', String a s' =>
      if c a then
        match classes cs' s' with
        | Some (m, rest) => Some (String a m, rest)
        | None => None
        end
      else None
  | _ :: _, EmptyString => None
  end.

(** A group of alternatives; the text it matched is converted with [int]. *)
Fixpoint group {A} (alts : list (list (ascii -> bool))) (s : string)
  (k : Z -> string -> option A) : option A :=
  match alts with
  | [] => None
  | alt :: alts' =>
      let attempt :=
        match classes alt s with
        | Some (m, rest) =>
            match PyStr.int m with
            | Some v => k v rest
            | None => None
            end
        | None => None
        end in
      match attempt with
      | Some r => Some r
      | None => group alts' s k
      end
  end.

Definition literal {A} (c : ascii) (s : string) (k : string -> option A) : option A :=
  match s with
  | String a s' => if Ascii.eqb a c then k s' else None
  | EmptyString => None
  end.

(** [\s+]: what follows it in the expression starts with a digit, so giving
    white space back never helps, and the run is taken whole. *)
Definition spaces {A} (s : string) (k : string -> option A) : option A :=
  match s with
  | String a s' => if PyStr.isspace a then k (PyStr.lstrip s') else None
  | EmptyString => None
  end.

Definition pat_Y := [[is_digit; is_digit; is_digit; is_digit]].
Definition pat_m :=
  [[is_char "1"; in_range "0" "2"]; [is_char "0"; in_range "1" "9"]; [in_range "1" "9"]].
Definition pat_d :=
  [[is_char "3"; in_range "0" "1"]; [in_range "1" "2"; is_digit];
   [is_char "0"; in_range "1" "9"]; [in_range "1" "9"]; [is_char " "; in_range "1" "9"]].
Definition pat_H :=
  [[is_char "2"; in_range "0" "3"]; [in_range "0" "1"; is_digit]; [is_digit]].
Definition pat_M := [[in_range "0" "5"; is_digit]; [is_digit]].
Definition pat_S :=
  [[is_char "6"; in_range "0" "1"]; [in_range "0" "5"; is_digit]; [is_digit]].

Definition strptime (s : string) : option datetime :=
  found ←
    group pat_Y s (fun Y s =>
    literal "-" s (fun s =>
    group pat_m s (fun m s =>
    literal "-" s (fun s =>
    group pat_d s (fun d s =>
    spaces s (fun s =>
    group pat_H s (fun H s =>
    literal ":" s (fun s =>
    group pat_M s (fun M s =>
    literal ":" s (fun s =>
    group pat_S s (fun S s =>
    Some ({| year := Y; month := m; day := d;
             hour := H; minute := M; second := S; microsecond := 0 |}, s))))))))))));
  let '(dt, unconverted) := found in
  match unconverted with
  | EmptyString => if valid dt then Some dt else None
  | _ => None
  end.

End PyDatetime.

(** ** The generation client ([src/generator.py]) *)

Module Generator.

Import Prompts.

(** The arguments of one [chat.completions.create] call: the contents of
    the system and the user message, the model, and the sampling settings. *)
Record request : Type := {
  system_content : string;
  user_content : string;
  req_model : string;
  temperature : Q;
  max_tokens : Z
}.

(** The remote service: what it answers to a request, after the requests it
    has served: the content of the first choice's message, or an exception
    (authentication, network, rate limit). *)
Definition service : Type := list request -> request -> res string.

(** [self] *)
Record LinkedInPostGenerator : Type := {
  api_key : string;
  client : service;
  model : string
}.

(** [__init__]: [env_key] is the value of [GROQ_API_KEY] in the environment;
    an empty key counts as none. *)
Definition init (api_key env_key : option string) (groq : string -> service)
  : res LinkedInPostGenerator :=
  let key :=
    match api_key with
    | Some (String c k) => Some (String c k)
    | _ => env_key
    end in
  match key with
  | Some (String c k) =>
      if String.eqb (String c k) "your_groq_api_key_here"
      then Raise (ValueError "Please set your GROQ_API_KEY in the .env file")
      else Ok {| api_key := String c k; client := groq (String c k);
                 model := "llama-3.3-70b-versatile" |}
  | _ => Raise (ValueError "Please set your GROQ_API_KEY in the .env file")
  end.

(** A method runs on the list of the requests sent so far, and leaves the
    list it has extended; an exception leaves the list as it stood when it
    was raised.  [_call_groq_api] is the one place that reaches the
    service. *)
Definition M (A : Type) : Type := list request -> res A * list request.

#[global] Instance M_ret : MRet M := fun A a sent => (Ok a, sent).
#[global] Instance M_bind : MBind M := fun A B f m sent =>
  match m sent with
  | (Ok a, sent') => f a sent'
  | (Raise e, sent') => (Raise e, sent')
  end.

Definition raise {A} (e : exn) : M A := fun sent => (Raise e, sent).

Definition lift {A} (r : res A) : M A := fun sent => (r, sent).

Definition _call_groq_api (self : LinkedInPostGenerator)
  (prompt system_prompt : string) (temp : Q) (max_tok : Z) : M string :=
  fun sent =>
    let req := {| system_content := system_prompt; user_content := prompt;
                  req_model := model self; temperature := temp; max_tokens := max_tok |} in
    (match client self sent req with
     | Ok content => Ok (PyStr.strip content)
     | Raise e => Raise (Exception ("Error calling Groq API: " +:+ exn_str e))
     end, sent ++ [req]).

(** [generate_post] with its defaults written out by the caller. *)
Definition generate_post (self : LinkedInPostGenerator)
  (topic tone length post_type : string) : M string :=
  if negb (PyStr.nonempty topic) || String.eqb (PyStr.strip topic) "" then
    raise (ValueError "Topic cannot be empty")
  else
    prompt ← lift (get_post_prompt tone topic length post_type);
    _call_groq_api self prompt SYSTEM_PROMPT (8 # 10) 1500.

Definition is_hashtag (word : string) : bool := PyStr.startswith word "#".

Definition generate_hashtags (self : LinkedInPostGenerator) (topic : string) : M string :=
  prompt ← lift (get_hashtag_prompt topic);
  hashtags ← _call_groq_api self prompt SYSTEM_PROMPT (6 # 10) 200;
  (* Clean up the response *)
  let hashtags := PyStr.strip hashtags in
  if negb (PyStr.startswith hashtags "#") then
    (* Extract hashtags if the response contains extra text *)
    let words := PyStr.split hashtags in
    mret (PyStr.join " " (List.filter is_hashtag words))
  else mret hashtags.

Definition refine_post (self : LinkedInPostGenerator) (post refinement_type : string)
  : M string :=
  prompt ← lift (get_refinement_prompt refinement_type post);
  match prompt with
  | Some (String c p) => _call_groq_api self (String c p) SYSTEM_PROMPT (7 # 10) 1500
  | _ => raise (ValueError ("Invalid refinement type: " +:+ refinement_type))
  end.

(** *** [predict_engagement] *)

(** The dictionary [result]. *)
Record engagement : Type := {
  hook : Z;
  content : Z;
  readability : Z;
  cta : Z;
  authenticity : Z;
  total : Z;
  prediction : string;
  details : string
}.

Definition set_hook (v : Z) (r : engagement) : engagement :=
  {| hook := v; content := content r; readability := readability r; cta := cta r;
     authenticity := authenticity r; total := total r;
     prediction := prediction r; details := details r |}.
Definition set_content (v : Z) (r : engagement) : engagement :=
  {| hook := hook r; content := v; readability := readability r; cta := cta r;
     authenticity := authenticity r; total := total r;
     prediction := prediction r; details := details r |}.
Definition set_readability (v : Z) (r : engagement) : engagement :=
  {| hook := hook r; content := content r; readability := v; cta := cta r;
     authenticity := authenticity r; total := total r;
     prediction := prediction r; details := details r |}.
Definition set_cta (v : Z) (r : engagement) : engagement :=
  {| hook := hook r; content := content r; readability := readability r; cta := v;
     authenticity := authenticity r; total := total r;
     prediction := prediction r; details := details r |}.
Definition set_authenticity (v : Z) (r : engagement) : engagement :=
  {| hook := hook r; content := content r; readability := readability r; cta := cta r;
     authenticity := v; total := total r;
     prediction := prediction r; details := details r |}.
Definition set_total (v : Z) (r : engagement) : engagement :=
  {| hook := hook r; content := content r; readability := readability r; cta := cta r;
     authenticity := authenticity r; total := v;
     prediction := prediction r; details := details r |}.
Definition set_prediction (v : string) (r : engagement) : engagement :=
  {| hook := hook r; content := content r; readability := readability r; cta := cta r;
     authenticity := authenticity r; total := total r;
     prediction := v; details := details r |}.

Definition newline : ascii := "010"%char.

(** [int(line.split("/")[0].split(":")[-1].strip())]; [None] when it
    raises. *)
Definition score (line : string) : option Z :=
  before_slash ← PyStr.split_sep "/" line !! 0%nat;
  after_colon ← PyStr.last_item (PyStr.split_sep ":" before_slash);
  PyStr.int (PyStr.strip after_colon).

(** One turn of the loop: the assignment the line makes, or [None] when
    evaluating its right-hand side raises. *)
Definition assignment (line : string) : option (engagement -> engagement) :=
  let line := PyStr.strip line in
  if PyStr.startswith line "Hook:" then set_hook <$> score line
  else if PyStr.startswith line "Content:" then set_content <$> score line
  else if PyStr.startswith line "Readability:" then set_readability <$> score line
  else if PyStr.startswith line "CTA:" then set_cta <$> score line
  else if PyStr.startswith line "Authenticity:" then set_authenticity <$> score line
  else if PyStr.startswith line "Total:" then set_total <$> score line
  else if PyStr.startswith line "Prediction:" then
    after_colon ← PyStr.split_sep_max ":" 1 line !! 1%nat;
    Some (set_prediction (PyStr.strip after_colon))
  else Some id.

(** The [for] loop on the dictionary: it ends with the lines, or at the
    first line that raises ([false]), the dictionary keeping what was
    assigned before. *)
Fixpoint for_lines (lines : list string) (result : engagement) : engagement * bool :=
  match lines with
  | [] => (result, true)
  | line :: lines' =>
      match assignment line with
      | Some assign => for_lines lines' (assign result)
      | None => (result, false)
      end
  end.

Definition predict_engagement (self : LinkedInPostGenerator) (post : string)
  : M engagement :=
  prompt ← lift (get_engagement_score_prompt post);
  response ← _call_groq_api self prompt SYSTEM_PROMPT (3 # 10) 500;
  (* Parse the response *)
  let result :=
    {| hook := 0; content := 0; readability := 0; cta := 0; authenticity := 0;
       total := 0; prediction := "Unknown"; details := response |} in
  (* try: ... except: pass *)
  let '(result, _) := for_lines (PyStr.split_sep newline response) result in
  mret result.

(** *** [generate_hooks] *)

(** [l[i]] *)
Definition item {A} (l : list A) (i : nat) : res A :=
  match l !! i with
  | Some x => Ok x
  | None => Raise (IndexError "list index out of range")
  end.

(** [line.split(":", 1)[1].strip() if ":" in line else line] *)
Definition hook_text (line : string) : res string :=
  if PyStr.contains ":" line then PyStr.strip <$> item (PyStr.split_sep_max ":" 1 line) 1
  else Ok line.

Fixpoint hooks_loop (lines hooks : list string) : res (list string) :=
  match lines with
  | [] => Ok hooks
  | line :: lines' =>
      if PyStr.startswith (PyStr.strip line) "Hook" then
        text ← hook_text line; hooks_loop lines' (hooks ++ [text])
      else hooks_loop lines' hooks
  end.

Definition generate_hooks (self : LinkedInPostGenerator) (topic : string)
  : M (list string) :=
  prompt ← lift (get_hook_prompt topic);
  response ← _call_groq_api self prompt SYSTEM_PROMPT (9 # 10) 300;
  (* Parse the hooks from response *)
  hooks ← lift (hooks_loop (PyStr.split_sep newline response) []);
  mret (match hooks with [] => [response] | _ => hooks end).

(** *** [generate_variations] *)

Definition temperatures : list Q := [7 # 10; 85 # 100; 95 # 100].

(** The loop over [range(min(count, 3))]; the prompt is that of the default
    post type. *)
Fixpoint variations_loop (self : LinkedInPostGenerator) (topic tone length : string)
  (indices : list nat) (variations : list string) : M (list string) :=
  match indices with
  | [] => mret variations
  | i :: indices' =>
      prompt ← lift (get_post_prompt tone topic length "general");
      temp ← lift (item temperatures i);
      post ← _call_groq_api self prompt SYSTEM_PROMPT temp 1500;
      variations_loop self topic tone length indices' (variations ++ [post])
  end.

Definition generate_variations (self : LinkedInPostGenerator)
  (topic tone length : string) (count : Z) : M (list string) :=
  variations_loop self topic tone length (seq 0 (Z.to_nat (Z.min count 3))) [].

(** *** [add_emojis] *)

Definition add_emojis (self : LinkedInPostGenerator) (post topic : string) : M string :=
  let prompt :=
    "Add 2-3 relevant and professional emojis to this LinkedIn post. 
Place them naturally where they enhance the message. Don't overdo it.

Topic: " +:+ topic +:+ "
Post:
" +:+ post +:+ "

Return the post with emojis added:" in
  _call_groq_api self prompt SYSTEM_PROMPT (6 # 10) 1500.

(** *** [generate_cta] *)

(** [line.split(".", 1)[1].strip() if "." in line else line.strip("- ")] *)
Definition cta_text (line : string) : res string :=
  if PyStr.contains "." line then PyStr.strip <$> item (PyStr.split_sep_max "." 1 line) 1
  else Ok (PyStr.strip_chars "- " line).

(** [line and (line[0].isdigit() or line.startswith("-"))] *)
Definition is_cta_line (line : string) : bool :=
  match line with
  | EmptyString => false
  | String c _ => PyStr.isdigit c || PyStr.startswith line "-"
  end.

Fixpoint ctas_loop (lines ctas : list string) : res (list string) :=
  match lines with
  | [] => Ok ctas
  | line :: lines' =>
      let line := PyStr.strip line in
      if is_cta_line line then
        cta ← cta_text line; ctas_loop lines' (ctas ++ [cta])
      else ctas_loop lines' ctas
  end.

Definition generate_cta (self : LinkedInPostGenerator) (topic : string)
  : M (list string) :=
  let prompt :=
    "Generate 3 engaging call-to-action (CTA) statements for a LinkedIn post about: "
    +:+ topic +:+ "

Each CTA should:
- Encourage engagement (comments, shares, discussion)
- Be natural and not pushy
- Be 1 line

Format:
1. [CTA 1]
2. [CTA 2]
3. [CTA 3]" in
  response ← _call_groq_api self prompt SYSTEM_PROMPT (7 # 10) 300;
  (* Parse CTAs *)
  ctas ← lift (ctas_loop (PyStr.split_sep newline response) []);
  mret (match ctas with [] => [response] | _ => ctas end).

(** *** [test_api_connection]

    The [try] catches every exception, that of the constructor and that of
    the call. *)
Definition test_api_connection (api_key env_key : option string)
  (groq : string -> service) : list request -> (bool * string) * list request :=
  fun sent =>
    match init api_key env_key groq with
    | Raise e => ((false, "Connection failed: " +:+ exn_str e), sent)
    | Ok generator =>
        match _call_groq_api generator "Say 'API connection successful'"
                "You are a test assistant." (7 # 10) 50 sent with
        | (Ok _, sent') => ((true, "Connection successful!"), sent')
        | (Raise e, sent') => ((false, "Connection failed: " +:+ exn_str e), sent')
        end
    end.

End Generator.

(** ** Text helpers ([src/utils.py]) *)

Module Utils.

Definition count_words (text : string) : Z :=
  match text with
  | EmptyString => 0
  | _ => Z.of_nat (length (PyStr.split text))
  end.

Definition estimate_read_time (text : string) (words_per_minute : Z) : res Z :=
  let word_count := count_words text in
  if (words_per_minute =? 0)%Z then Raise (ZeroDivisionError "division by zero")
  else
    let minutes := PyFloat.int_truediv word_count words_per_minute in
    Ok (PyFloat.to_int (PyFloat.mul minutes (PyFloat.of_int 60))).

(** [x < n] for a float and an [int], which Python compares exactly. *)
Definition lt_int (x : Q) (n : Z) : bool := negb (Qle_bool (inject_Z n) x).

(** [f"{n} {unit}{'s' if n != 1 else ''} ago"] *)
Definition ago (n : Z) (unit : string) : string :=
  PyStr.str_of_int n +:+ " " +:+ unit +:+ (if (n =? 1)%Z then "" else "s") +:+ " ago".

(** [now] is what [datetime.now()] returns. *)
Definition get_relative_time (now : PyDatetime.datetime) (timestamp : string) : string :=
  match PyDatetime.strptime timestamp with
  | None => "unknown"
  | Some dt =>
      let diff := PyDatetime.sub now dt in
      let seconds := PyDatetime.total_seconds diff in
      if lt_int seconds 60 then "just now"
      else if lt_int seconds 3600 then
        ago (PyFloat.to_int (PyFloat.div seconds (PyFloat.of_int 60))) "minute"
      else if lt_int seconds 86400 then
        ago (PyFloat.to_int (PyFloat.div seconds (PyFloat.of_int 3600))) "hour"
      else if lt_int seconds 604800 then
        ago (PyFloat.to_int (PyFloat.div seconds (PyFloat.of_int 86400))) "day"
      else
        ago (PyFloat.to_int (PyFloat.div seconds (PyFloat.of_int 604800))) "week"
  end.

Definition truncate_text (text : string) (max_length : Z) (suffix : string) : string :=
  if (Z.of_nat (PyStr.len text) <=? max_length)%Z then text
  else PyStr.rstrip (PyStr.slice_to (max_length - Z.of_nat (PyStr.len suffix)) text) +:+ suffix.

(** One turn of the loop of [format_hashtags]. *)
Definition format_tag (formatted_tags : list string) (tag : string) : list string :=
  let tag := PyStr.strip tag in
  let tag :=
    if PyStr.nonempty tag && negb (PyStr.startswith tag "#")
    then "#" +:+ tag else tag in
  if PyStr.nonempty tag then formatted_tags ++ [tag] else formatted_tags.

Definition format_hashtags (hashtags : string) : string :=
  match hashtags with
  | EmptyString => ""
  | _ =>
      (* Split and clean *)
      let tags := PyStr.split (PyStr.replace "," " " hashtags) in
      (* Ensure each tag starts with # *)
      let formatted_tags := fold_left format_tag tags [] in
      PyStr.join " " formatted_tags
  end.

Definition count_characters (text : string) (include_spaces : bool) : Z :=
  match text with
  | EmptyString => 0
  | _ =>
      if include_spaces then Z.of_nat (PyStr.len text)
      else Z.of_nat (PyStr.len (PyStr.remove " " text))
  end.

Definition extract_hashtags (text : string) : list string := PyStr.findall_hashtags text.

Definition count_hashtags (text : string) : Z := Z.of_nat (length (extract_hashtags text)).

Definition clean_text (text : string) : string :=
  (* Remove extra whitespace *)
  let text := PyStr.sub_spaces text in
  (* Remove leading/trailing whitespace *)
  PyStr.strip text.

Definition newline : string := String Generator.newline EmptyString.

Definition format_post_preview (content : string) (max_lines : Z) : string :=
  let lines := PyStr.split_sep Generator.newline content in
  if (Z.of_nat (length lines) <=? max_lines)%Z then content
  else
    let preview_lines := PyStr.list_slice_to max_lines lines in
    let preview := PyStr.join newline preview_lines in
    preview +:+ newline +:+ "...".

(** The variables of the loop of [add_line_breaks]. *)
Record wrap : Type := {
  lines : list string;
  current_line : list string;
  current_length : Z
}.

Definition wrap_word (max_line_length : Z) (st : wrap) (word : string) : wrap :=
  let word_length := (Z.of_nat (PyStr.len word) + 1)%Z in  (* +1 for space *)
  if (max_line_length <? current_length st + word_length)%Z
     && match current_line st with [] => false | _ => true end
  then
    {| lines := lines st ++ [PyStr.join " " (current_line st)];
       current_line := [word];
       current_length := Z.of_nat (PyStr.len word) |}
  else
    {| lines := lines st;
       current_line := current_line st ++ [word];
       current_length := (current_length st + word_length)%Z |}.

Definition add_line_breaks (text : string) (max_line_length : Z) : string :=
  let words := PyStr.split text in
  let st :=
    fold_left (wrap_word max_line_length) words
      {| lines := []; current_line := []; current_length := 0 |} in
  let lines :=
    match current_line st with
    | [] => lines st
    | _ => lines st ++ [PyStr.join " " (current_line st)]
    end in
  PyStr.join newline lines.

End Utils.

(** * Properties *)

(** ** Notions the statements use *)

(** A string with no white space in it. *)
Fixpoint spaceless (s : string) : bool :=
  match s with
  | EmptyString => true
  | String c s' => negb (PyStr.isspace c) && spaceless s'
  end.

(** A token of [split]: not empty, and no white space in it. *)
Definition token (w : string) : Prop := w <> EmptyString /\ spaceless w = true.

(** What [format_hashtags] makes of a token: a token that starts with [#]
    stays as it is, any other gets one [#] in front. *)
Definition with_hash (tag : string) : string :=
  if PyStr.startswith tag "#" then tag else "#" +:+ tag.

(** The keys of [REFINEMENT_PROMPTS]. *)
Definition refinement_kinds : list string :=
  ["make_shorter"; "make_longer"; "add_storytelling"; "more_professional"; "add_cta"].

(** The selection rule of the specification: the template of the post type
    if there is one, else the template of the tone, else the professional
    one. *)
Definition fallback_rule (tone topic length post_type : string) : res string :=
  match Prompts.POST_TYPE_PROMPTS !! post_type with
  | Some template =>
      PyFormat.format template {[ "topic" := topic; "length" := length; "tone" := tone ]}
  | None =>
      match Prompts.POST_GENERATION_PROMPTS !! PyStr.lower tone with
      | Some template =>
          PyFormat.format template {[ "topic" := topic; "length" := length ]}
      | None =>
          PyFormat.format (Prompts.POST_GENERATION_PROMPTS !!! "professional")
            {[ "topic" := topic; "length" := length ]}
      end
  end.

(** The scored fields of the engagement dictionary. *)
Inductive field : Type := Hook | Content | Readability | CTA | Authenticity | Total.

Definition prefix_of (f : field) : string :=
  match f with
  | Hook => "Hook:"
  | Content => "Content:"
  | Readability => "Readability:"
  | CTA => "CTA:"
  | Authenticity => "Authenticity:"
  | Total => "Total:"
  end.

Definition get (f : field) (r : Generator.engagement) : Z :=
  match f with
  | Hook => Generator.hook r
  | Content => Generator.content r
  | Readability => Generator.readability r
  | CTA => Generator.cta r
  | Authenticity => Generator.authenticity r
  | Total => Generator.total r
  end.

(** The value a line gives to field [f], if it is a line of [f] whose score
    parses. *)
Definition scored (f : field) (line : string) : option Z :=
  if PyStr.startswith (PyStr.strip line) (prefix_of f)
  then Generator.score (PyStr.strip line) else None.

(** The label a [Prediction:] line gives. *)
Definition predicted (line : string) : option string :=
  if PyStr.startswith (PyStr.strip line) "Prediction:"
  then PyStr.strip <$> (PyStr.split_sep_max ":" 1 (PyStr.strip line) !! 1%nat) else None.

Definition fields : list field := [Hook; Content; Readability; CTA; Authenticity; Total].

(** A scored line whose value does not parse: the line bears the prefix of a
    field, and converting its score raises, because the text is no integer
    literal or has more than 4300 digits. *)
Definition malformed (line : string) : bool :=
  existsb (fun f => PyStr.startswith (PyStr.strip line) (prefix_of f)) fields
  && match Generator.score (PyStr.strip line) with Some _ => false | None => true end.

(** The lines before the first malformed one. *)
Fixpoint leading (lines : list string) : list string :=
  match lines with
  | [] => []
  | line :: lines' => if malformed line then [] else line :: leading lines'
  end.

(** A generator whose service answers every request with [reply]. *)
Definition answering (reply : string) : Generator.LinkedInPostGenerator :=
  {| Generator.api_key := "gsk_test";
     Generator.client := fun _ _ => Ok reply;
     Generator.model := "llama-3.3-70b-versatile" |}.

(** A string that does not start with white space. *)
Definition clean_start (s : string) : Prop :=
  match s with EmptyString => True | String c _ => PyStr.isspace c = false end.

Definition comma_free (s : string) : Prop := PyStr.contains "," s = false.

(** What one turn of the loop of [predict_engagement] does, field by field. *)
Definition turn_spec (line : string)
  (assign : Generator.engagement -> Generator.engagement) : Prop :=
  forall result,
    (forall f, get f (assign result) = default (get f result) (scored f line))
    /\ Generator.prediction (assign result)
       = default (Generator.prediction result) (predicted line)
    /\ Generator.details (assign result) = Generator.details result.

(** The significand of the float nearest to [n/d], an integer of at most 53
    bits. *)
Definition significand (n d : positive) : Z :=
  PyFloat.rne ((Zpos n # d) / PyFloat.pow2 (PyFloat.exponent n d)).

(** [datetime.now()] at a time of 5 January 2024. *)
Definition at_time (h m s : Z) : PyDatetime.datetime :=
  {| PyDatetime.year := 2024; PyDatetime.month := 1; PyDatetime.day := 5;
     PyDatetime.hour := h; PyDatetime.minute := m; PyDatetime.second := s;
     PyDatetime.microsecond := 0 |}.

(** What [_call_groq_api] makes of the answer of the service. *)
Definition relayed (answer : res string) : res string :=
  match answer with
  | Ok content => Ok (PyStr.strip content)
  | Raise e => Raise (Exception ("Error calling Groq API: " +:+ exn_str e))
  end.

(** The request a method sends: the catalogue's system prompt, the model of
    the generator, and the method's own prompt and settings. *)
Definition request_of (self : Generator.LinkedInPostGenerator) (prompt : string)
  (temperature : Q) (max_tokens : Z) : Generator.request :=
  {| Generator.system_content := Prompts.SYSTEM_PROMPT;
     Generator.user_content := prompt;
     Generator.req_model := Generator.model self;
     Generator.temperature := temperature;
     Generator.max_tokens := max_tokens |}.

(** A string that has no [c] in it. *)
Definition lacks (c : ascii) (s : string) : Prop := PyStr.contains c s = false.

(** The text a line of the reply gives to a list: the line, or what it has
    after the first [sep], stripped; [whole] is what is kept of a line that
    has no [sep]. *)
Inductive text_of (sep : ascii) (whole : string -> string) : string -> string -> Prop :=
| text_whole line : lacks sep line -> text_of sep whole line (whole line)
| text_after before after :
    lacks sep before ->
    text_of sep whole (before +:+ String sep after) (PyStr.strip after).

(** The hook of a line: the line as it is, or what follows its first colon. *)
Definition hook_of : string -> string -> Prop := text_of ":" (fun line => line).

(** The call to action of a line: the line without the dashes and spaces
    around it, or what follows its first full stop. *)
Definition cta_of : string -> string -> Prop := text_of "." (PyStr.strip_chars "- ").

(** The lines of a reply that start with [Hook], white space before it
    apart. *)
Definition hook_lines (reply : string) : list string :=
  List.filter (fun line => PyStr.startswith (PyStr.strip line) "Hook")
    (PyStr.split_sep Generator.newline reply).

(** The lines of a reply, stripped, that start with a digit or a dash. *)
Definition cta_lines (reply : string) : list string :=
  List.filter Generator.is_cta_line
    (map PyStr.strip (PyStr.split_sep Generator.newline reply)).

(** [c * n] *)
Fixpoint run (c : ascii) (n : nat) : string :=
  match n with
  | O => EmptyString
  | S k => String c (run c k)
  end.

(** A word of [\w] characters, not empty. *)
Fixpoint wordy (s : string) : bool :=
  match s with
  | EmptyString => true
  | String c s' => PyStr.isword c && wordy s'
  end.

Definition word (w : string) : Prop := w <> EmptyString /\ wordy w = true.

(** The number of [c] in [s]. *)
Fixpoint occurrences (c : ascii) (s : string) : nat :=
  match s with
  | EmptyString => 0
  | String a s' => (if Ascii.eqb a c then 1 else 0) + occurrences c s'
  end.

(** A line that is within the width, or is one word. *)
Definition line_fits (max_line_length : Z) (line : string) : Prop :=
  (Z.of_nat (PyStr.len line) <= max_line_length)%Z \/ spaceless line = true.

(** The group [findall] is reading holds word characters only. *)
Definition reading (tag : option string) : Prop :=
  match tag with Some t => wordy t = true | None => True end.

(** A list of words that is not empty: the words of one line. *)
Definition line_words (g : list string) : Prop := g <> [] /\ Forall token g.

(** What the loop of [add_line_breaks] keeps true, [words] being the words
    read so far: the lines are made of those words in their order, followed
    by the words of the current line; every line fits; and the length the
    loop counts is no less than that of the current line, and within the
    width once the line has two words. *)
Definition wrap_inv (max_line_length : Z) (words : list string) (st : Utils.wrap) : Prop :=
  exists groups,
    Utils.lines st = map (PyStr.join " ") groups
    /\ Forall line_words groups
    /\ concat groups ++ Utils.current_line st = words
    /\ Forall token (Utils.current_line st)
    /\ Forall (line_fits max_line_length) (Utils.lines st)
    /\ (Z.of_nat (PyStr.len (PyStr.join " " (Utils.current_line st)))
        <= Utils.current_length st)%Z
    /\ ((2 <= length (Utils.current_line st))%nat ->
        (Utils.current_length st <= max_line_length)%Z).

(** ** The library models on known values *)

Example split_collapses_white_space :
  PyStr.split "a b  c" = ["a"; "b"; "c"] /\ PyStr.split "" = [].
Proof. split; reflexivity. Qed.

Example int_literals :
  PyStr.int " +12 " = Some 12%Z /\ PyStr.int "1_000" = Some 1000%Z
  /\ PyStr.int "007" = Some 7%Z /\ PyStr.int "-0" = Some 0%Z
  /\ PyStr.int "1__0" = None /\ PyStr.int "_1" = None /\ PyStr.int "+ 1" = None
  /\ PyStr.int "" = None /\ PyStr.int "high" = None.
Proof. repeat split. Qed.

(** 4300 digits are converted, 4301 are not, whatever the digits. *)
Example int_digit_limit :
  PyStr.int (run "1" 4300) <> None /\ PyStr.int (run "1" 4301) = None
  /\ PyStr.int (" -" +:+ run "0" 4300 +:+ " ") = Some 0%Z
  /\ PyStr.int ("+" +:+ run "0" 4301) = None
  /\ PyStr.int ("1_" +:+ run "0" 4299) <> None
  /\ PyStr.int ("1_" +:+ run "0" 4300) = None.
Proof. repeat split; vm_compute; done. Qed.

Example score_of_a_line :
  Generator.score "Hook: 20/25 - strong opening" = Some 20%Z
  /\ Generator.score "Hook: 30/25" = Some 30%Z
  /\ Generator.score "Hook: twenty/25" = None.
Proof. repeat split. Qed.

Example strptime_accepts :
  PyDatetime.strptime "2024-1-5 7:5:9" = PyDatetime.strptime "2024-01-05 07:05:09"
  /\ PyDatetime.strptime "2024-02-30 00:00:00" = None
  /\ PyDatetime.strptime "2024-01-05 10:00:60" = None
  /\ PyDatetime.strptime "2024-01-05 10:00:00 " = None
  /\ PyDatetime.ymd2ord 2024 1 5 = 738890%Z.
Proof. repeat split. Qed.

Example truncate_text_cuts :
  Utils.truncate_text "hello world foo" 10 "..." = "hello w..."
  /\ Utils.truncate_text "hello   world" 9 "..." = "hello...".
Proof. split; reflexivity. Qed.

(** ** Strings *)

Section StringFacts.

Implicit Types (s t w : string) (c : ascii).

Lemma append_cons c s t : String c s +:+ t = String c (s +:+ t).
Proof. reflexivity. Qed.

Lemma append_nil_l s : EmptyString +:+ s = s.
Proof. reflexivity. Qed.

Lemma append_nil_r s : s +:+ EmptyString = s.
Proof. induction s as [|c s IH]; [reflexivity|]. rewrite append_cons. by f_equal. Qed.

Lemma append_assoc s t w : (s +:+ t) +:+ w = s +:+ (t +:+ w).
Proof.
  induction s as [|c s IH]; [reflexivity|].
  rewrite !append_cons. by f_equal.
Qed.

Lemma len_append s t : PyStr.len (s +:+ t) = (PyStr.len s + PyStr.len t)%nat.
Proof.
  unfold PyStr.len. induction s as [|c s IH]; [reflexivity|].
  rewrite append_cons. simpl. by rewrite IH.
Qed.

Lemma len_take n s : (PyStr.len (PyStr.take n s) <= n)%nat.
Proof.
  unfold PyStr.len. revert s. induction n as [|n IH]; intros [|c s]; simpl; try lia.
  specialize (IH s). lia.
Qed.

Lemma len_rstrip s : (PyStr.len (PyStr.rstrip s) <= PyStr.len s)%nat.
Proof.
  unfold PyStr.len. induction s as [|c s IH]; simpl; [lia|].
  destruct (PyStr.rstrip s) as [|c' r].
  - destruct (PyStr.isspace c); simpl; lia.
  - simpl in *. lia.
Qed.

Lemma spaceless_append s t :
  spaceless (s +:+ t) = spaceless s && spaceless t.
Proof.
  induction s as [|c s IH]; [reflexivity|].
  rewrite append_cons. simpl. rewrite IH. by rewrite andb_assoc.
Qed.

(** *** [strip] *)

Lemma lstrip_clean s : clean_start (PyStr.lstrip s).
Proof.
  induction s as [|c s IH]; simpl; [done|].
  destruct (PyStr.isspace c) eqn:E; [done|]. exact E.
Qed.

Lemma lstrip_id s : clean_start s -> PyStr.lstrip s = s.
Proof. destruct s as [|c s]; simpl; [done|]. by intros ->. Qed.

Lemma rstrip_clean s : clean_start s -> clean_start (PyStr.rstrip s).
Proof.
  destruct s as [|c s]; simpl; [done|]. intros E.
  destruct (PyStr.rstrip s); [rewrite E|]; exact E.
Qed.

Lemma rstrip_idem s : PyStr.rstrip (PyStr.rstrip s) = PyStr.rstrip s.
Proof.
  induction s as [|c s IH]; simpl; [done|].
  destruct (PyStr.rstrip s) as [|c' r] eqn:E.
  - destruct (PyStr.isspace c) eqn:Ec; simpl; [done|]. by rewrite Ec.
  - change (PyStr.rstrip (String c (String c' r))) with
      (match PyStr.rstrip (String c' r) with
       | EmptyString => if PyStr.isspace c then EmptyString else String c EmptyString
       | r' => String c r'
       end).
    by rewrite IH.
Qed.

Lemma strip_idem s : PyStr.strip (PyStr.strip s) = PyStr.strip s.
Proof.
  unfold PyStr.strip.
  rewrite (lstrip_id (PyStr.rstrip _)) by apply rstrip_clean, lstrip_clean.
  apply rstrip_idem.
Qed.

Lemma rstrip_spaceless s : spaceless s = true -> PyStr.rstrip s = s.
Proof.
  induction s as [|c s IH]; simpl; [done|].
  intros [Ec Hs]%andb_prop. rewrite (IH Hs).
  destruct s; [|done]. by destruct (PyStr.isspace c).
Qed.

Lemma strip_token w : spaceless w = true -> PyStr.strip w = w.
Proof.
  intros Hw. unfold PyStr.strip. rewrite lstrip_id.
  - by apply rstrip_spaceless.
  - destruct w as [|c w]; simpl in *; [done|].
    apply andb_prop in Hw as [Hc _]. by destruct (PyStr.isspace c).
Qed.

(** *** [split] and [join] *)

Lemma split_from_spaceless t w s :
  spaceless t = true ->
  PyStr.split_from w (t +:+ s) = PyStr.split_from (w +:+ t) s.
Proof.
  revert w. induction t as [|c t IH]; intros w Ht.
  - by rewrite append_nil_l, append_nil_r.
  - simpl in Ht. apply andb_prop in Ht as [Hc Ht].
    rewrite append_cons. simpl. destruct (PyStr.isspace c); [done|].
    rewrite (IH _ Ht), append_assoc. reflexivity.
Qed.

Lemma split_from_tokens s : forall w,
  spaceless w = true -> Forall token (PyStr.split_from w s).
Proof.
  induction s as [|c s IH]; intros w Hw; simpl.
  - destruct w; [constructor|]. by repeat constructor.
  - destruct (PyStr.isspace c) eqn:Ec.
    + destruct w; [by apply IH|]. constructor; [done|by apply IH].
    + apply IH. rewrite spaceless_append, Hw. simpl. by rewrite Ec.
Qed.

Lemma split_tokens s : Forall token (PyStr.split s).
Proof. by apply split_from_tokens. Qed.

Lemma split_join ws :
  Forall token ws -> PyStr.split (PyStr.join " " ws) = ws.
Proof.
  unfold PyStr.split, PyStr.join.
  induction 1 as [|w ws [Hne Hw] Hws IH]; [done|].
  destruct ws as [|w' ws].
  - simpl. rewrite <- (append_nil_r w), split_from_spaceless, append_nil_l by done.
    simpl. rewrite append_nil_r. by destruct w.
  - change (String.concat " " (w :: w' :: ws))
      with (w +:+ String " " (String.concat " " (w' :: ws))).
    rewrite split_from_spaceless, append_nil_l by done.
    destruct w as [|c w]; [done|].
    change (PyStr.split_from (String c w) (String " " (String.concat " " (w' :: ws))))
      with (String c w :: PyStr.split_from EmptyString (String.concat " " (w' :: ws))).
    by rewrite IH.
Qed.

(** *** [startswith] *)

Lemma startswith_compatible s p q :
  PyStr.startswith s p = true -> PyStr.startswith s q = true ->
  PyStr.startswith p q || PyStr.startswith q p = true.
Proof.
  revert p q. induction s as [|c s IH]; intros [|a p] [|b q]; simpl; try done.
  destruct (Ascii.eqb_spec a c) as [->|]; [|done].
  destruct (Ascii.eqb_spec b c) as [->|]; [|done].
  rewrite Ascii.eqb_refl. apply IH.
Qed.

End StringFacts.

(** ** Text helpers *)

Section UtilsFacts.

Implicit Types (s t w text suffix : string) (c : ascii).

(** C10: with a suffix no longer than [max_length], the result of
    [truncate_text] is at most [max_length] long, and a text that is at most
    [max_length] long is returned as it is. *)
Theorem truncate_text_bounded text max_length suffix :
  (Z.of_nat (PyStr.len suffix) <= max_length)%Z ->
  (Z.of_nat (PyStr.len (Utils.truncate_text text max_length suffix)) <= max_length)%Z
  /\ ((Z.of_nat (PyStr.len text) <= max_length)%Z ->
      Utils.truncate_text text max_length suffix = text).
Proof.
  intros Hsuffix. unfold Utils.truncate_text.
  destruct (Z.leb_spec (Z.of_nat (PyStr.len text)) max_length) as [Hfits|Hlong].
  - split; [exact Hfits|reflexivity].
  - split; [|lia].
    unfold PyStr.slice_to.
    destruct (Z.ltb_spec (max_length - Z.of_nat (PyStr.len suffix)) 0) as [Hneg|_]; [lia|].
    rewrite len_append.
    pose proof (len_rstrip
      (PyStr.take (Z.to_nat (max_length - Z.of_nat (PyStr.len suffix))) text)) as Hr.
    pose proof (len_take (Z.to_nat (max_length - Z.of_nat (PyStr.len suffix))) text) as Ht.
    lia.
Qed.

Lemma truncate_text_bounded_witness :
  (Z.of_nat (PyStr.len "...") <= 10)%Z
  /\ (Z.of_nat (PyStr.len (Utils.truncate_text "hello world foo" 10 "...")) <= 10)%Z.
Proof.
  split.
  - vm_compute. discriminate.
  - apply (truncate_text_bounded "hello world foo" 10 "..."). vm_compute. discriminate.
Defined.

(** *** [format_hashtags] *)

Lemma replace_comma_free s : comma_free (PyStr.replace "," " " s).
Proof.
  unfold comma_free. induction s as [|c s IH]; simpl; [done|].
  rewrite IH. by destruct (Ascii.eqb_spec c ","); [|apply orb_false_iff; split;
    [by apply Ascii.eqb_neq|]].
Qed.

Lemma replace_id s : comma_free s -> PyStr.replace "," " " s = s.
Proof.
  unfold comma_free. induction s as [|c s IH]; simpl; [done|].
  intros [Hc Hs]%orb_false_iff. by rewrite Hc, IH.
Qed.

Lemma comma_free_append s t : comma_free s -> comma_free t -> comma_free (s +:+ t).
Proof.
  unfold comma_free. induction s as [|c s IH]; [done|].
  rewrite append_cons. simpl. intros [Hc Hs]%orb_false_iff Ht.
  by rewrite Hc, IH.
Qed.

Lemma split_from_comma_free s : forall w,
  comma_free w -> comma_free s -> Forall comma_free (PyStr.split_from w s).
Proof.
  induction s as [|c s IH]; intros w Hw Hs; simpl.
  - destruct w; by repeat constructor.
  - unfold comma_free in Hs. simpl in Hs. apply orb_false_iff in Hs as [Hc Hs].
    destruct (PyStr.isspace c).
    + destruct w; [by apply IH|]. constructor; [done|by apply IH].
    + apply IH; [|done]. apply comma_free_append; [done|].
      unfold comma_free. simpl. by rewrite Hc.
Qed.

Lemma join_comma_free ws : Forall comma_free ws -> comma_free (PyStr.join " " ws).
Proof.
  unfold PyStr.join. induction 1 as [|w ws Hw Hws IH]; [done|].
  destruct ws as [|w' ws]; [done|].
  change (String.concat " " (w :: w' :: ws))
    with (w +:+ String " " (String.concat " " (w' :: ws))).
  apply comma_free_append; [done|].
  unfold comma_free in *. simpl in *. exact IH.
Qed.

Lemma with_hash_starts w : PyStr.startswith (with_hash w) "#" = true.
Proof.
  unfold with_hash. destruct (PyStr.startswith w "#") eqn:E; [exact E|reflexivity].
Qed.

Lemma with_hash_idem w : with_hash (with_hash w) = with_hash w.
Proof. unfold with_hash at 1. by rewrite with_hash_starts. Qed.

Lemma with_hash_token w : token w -> token (with_hash w).
Proof.
  intros [Hne Hw]. unfold with_hash.
  destruct (PyStr.startswith w "#"); [done|]. split; [done|].
  rewrite spaceless_append. by rewrite Hw.
Qed.

Lemma with_hash_comma_free w : comma_free w -> comma_free (with_hash w).
Proof.
  intros Hw. unfold with_hash.
  destruct (PyStr.startswith w "#"); [done|]. by apply comma_free_append.
Qed.

Lemma format_tag_token tags w :
  token w -> Utils.format_tag tags w = tags ++ [with_hash w].
Proof.
  intros [Hne Hw]. unfold Utils.format_tag, with_hash. rewrite (strip_token w Hw).
  assert (PyStr.nonempty w = true) as Hw' by by destruct w.
  rewrite Hw', andb_true_l.
  destruct (PyStr.startswith w "#"); cbn [negb]; [by rewrite Hw'|reflexivity].
Qed.

Lemma fold_format_tag ws : forall tags,
  Forall token ws -> fold_left Utils.format_tag ws tags = tags ++ map with_hash ws.
Proof.
  induction ws as [|w ws IH]; intros tags Hws; simpl.
  - by rewrite app_nil_r.
  - inversion Hws as [|? ? Hw Hws']; subst.
    rewrite (format_tag_token _ _ Hw), (IH _ Hws'), <- app_assoc. reflexivity.
Qed.

Lemma format_hashtags_eq s :
  Utils.format_hashtags s
  = PyStr.join " " (map with_hash (PyStr.split (PyStr.replace "," " " s))).
Proof.
  destruct s as [|c s]; [reflexivity|].
  unfold Utils.format_hashtags.
  by rewrite (fold_format_tag _ [] (split_tokens _)).
Qed.

Lemma format_hashtags_tokens s :
  PyStr.split (Utils.format_hashtags s)
  = map with_hash (PyStr.split (PyStr.replace "," " " s)).
Proof.
  rewrite format_hashtags_eq. apply split_join.
  apply Forall_map. eapply Forall_impl; [apply split_tokens|].
  intros w. apply with_hash_token.
Qed.

Lemma format_hashtags_comma_free s : comma_free (Utils.format_hashtags s).
Proof.
  rewrite format_hashtags_eq. apply join_comma_free, Forall_map.
  eapply Forall_impl; [apply split_from_comma_free; [done|apply replace_comma_free]|].
  intros w. apply with_hash_comma_free.
Qed.

End UtilsFacts.

Section FormatHashtags.

(** C5, as the code has it: [format_hashtags "ai, ml"] is ["#ai #ml"]; for
    every input, commas separate tokens like white space, no comma is left
    in the output, and every token of the output starts with [#]: the token
    of the input if that starts with [#] already, else the token with one
    [#] put in front. *)
Theorem format_hashtags_tokens_hashed :
  Utils.format_hashtags "ai, ml" = "#ai #ml"
  /\ forall hashtags : string,
      PyStr.split (Utils.format_hashtags hashtags)
      = map with_hash (PyStr.split (PyStr.replace "," " " hashtags))
      /\ Forall (fun tag => PyStr.startswith tag "#" = true)
           (PyStr.split (Utils.format_hashtags hashtags))
      /\ PyStr.contains "," (Utils.format_hashtags hashtags) = false.
Proof.
  split; [reflexivity|]. intros hashtags. split; [apply format_hashtags_tokens|]. split.
  - rewrite format_hashtags_tokens. apply Forall_map, Forall_forall.
    intros tag _. apply with_hash_starts.
  - apply format_hashtags_comma_free.
Qed.

(** A token that comes with two [#] keeps both: the output has a token with
    more than one leading [#]. *)
Lemma format_hashtags_keeps_double_hash :
  exists tag, In tag (PyStr.split (Utils.format_hashtags "##ai"))
              /\ PyStr.startswith tag "##" = true.
Proof. exists "##ai". split; [left|]; reflexivity. Qed.

(** C9: [format_hashtags] is idempotent. *)
Theorem format_hashtags_idempotent (hashtags : string) :
  Utils.format_hashtags (Utils.format_hashtags hashtags) = Utils.format_hashtags hashtags.
Proof.
  rewrite (format_hashtags_eq (Utils.format_hashtags hashtags)).
  rewrite replace_id.
  - rewrite format_hashtags_tokens, format_hashtags_eq. f_equal.
    rewrite map_map. apply map_ext. intros w. apply with_hash_idem.
  - apply format_hashtags_comma_free.
Qed.

End FormatHashtags.

(** ** The prompt catalogue *)

Section Catalogue.

Import Prompts.

Implicit Types (tone topic length post_type post : string).

(** A key that differs from every key of a table is absent from it. *)
Ltac absent :=
  rewrite ?lookup_insert_ne by done; apply lookup_singleton_ne; done.

Lemma refinement_lookup_None k :
  k ∉ refinement_kinds -> REFINEMENT_PROMPTS !! k = None.
Proof.
  unfold refinement_kinds. rewrite !not_elem_of_cons. intros (?&?&?&?&?&_).
  unfold REFINEMENT_PROMPTS. absent.
Qed.

Lemma get_refinement_prompt_unknown k post :
  k ∉ refinement_kinds -> get_refinement_prompt k post = Ok None.
Proof.
  intros Hk. unfold get_refinement_prompt.
  rewrite (refinement_lookup_None k Hk). reflexivity.
Qed.

(** C2, as the code has it: the kinds the lookup knows are [make_shorter],
    [make_longer], [add_storytelling], [more_professional] and [add_cta].
    For each of them [get_refinement_prompt] returns the template of the
    kind with the post filled in, a string that is not empty; for every
    other kind it returns [None]. *)
Theorem get_refinement_prompt_kinds k post :
  if bool_decide (k ∈ refinement_kinds) then
    exists template prompt,
      REFINEMENT_PROMPTS !! k = Some template
      /\ PyFormat.format template {[ "post" := post ]} = Ok prompt
      /\ get_refinement_prompt k post = Ok (Some prompt)
      /\ prompt <> EmptyString
  else get_refinement_prompt k post = Ok None.
Proof.
  case_bool_decide as Hk; [|by apply get_refinement_prompt_unknown].
  unfold refinement_kinds in Hk.
  repeat (apply elem_of_cons in Hk as [->|Hk]);
    [..|by apply elem_of_nil in Hk];
    (eexists _, _; split; [vm_compute; reflexivity|];
     split; [vm_compute; reflexivity|]; split; [vm_compute; reflexivity|done]).
Qed.

(** The kinds the specification names [shorten] and [lengthen] are no keys
    of the table, and [make_shorter], which it does not name, is one. *)
Lemma shorten_is_not_a_kind :
  get_refinement_prompt "shorten" "We shipped." = Ok None
  /\ get_refinement_prompt "lengthen" "We shipped." = Ok None
  /\ exists prompt, get_refinement_prompt "make_shorter" "We shipped." = Ok (Some prompt).
Proof.
  split; [reflexivity|]. split; [reflexivity|].
  eexists. vm_compute. reflexivity.
Qed.

Lemma post_type_lookup_None post_type :
  post_type ∉ ["announcement"; "tips"; "question"; "achievement"; "industry_insight"] ->
  POST_TYPE_PROMPTS !! post_type = None.
Proof.
  rewrite !not_elem_of_cons. intros (?&?&?&?&?&_). unfold POST_TYPE_PROMPTS. absent.
Qed.

Lemma tone_lookup_None t :
  t ∉ ["professional"; "casual"; "motivational"; "educational"; "storytelling";
       "thought-leadership"] ->
  POST_GENERATION_PROMPTS !! t = None.
Proof.
  rewrite !not_elem_of_cons. intros (?&?&?&?&?&?&_). unfold POST_GENERATION_PROMPTS. absent.
Qed.

(** C4: [get_post_prompt] follows the selection rule: the template of the
    post type when there is one, filled with topic, length and tone; else
    the template of the tone, looked up by the tone in small letters, filled
    with topic and length; else the professional template, filled with topic
    and length.  It raises for no input. *)
Theorem get_post_prompt_fallback tone topic length post_type :
  get_post_prompt tone topic length post_type = fallback_rule tone topic length post_type
  /\ exists prompt, get_post_prompt tone topic length post_type = Ok prompt.
Proof.
  destruct (decide (post_type ∈
    ["announcement"; "tips"; "question"; "achievement"; "industry_insight"])) as [Hin|Hout].
  { repeat (apply elem_of_cons in Hin as [->|Hin]); [..|by apply elem_of_nil in Hin];
      (split; [vm_compute; reflexivity|eexists; vm_compute; reflexivity]). }
  unfold get_post_prompt, fallback_rule.
  rewrite (post_type_lookup_None _ Hout).
  rewrite (bool_decide_eq_false_2 (is_Some None)) by (intros [? ?]; discriminate).
  rewrite andb_false_r.
  generalize (PyStr.lower tone). intros t.
  destruct (decide (t ∈ ["professional"; "casual"; "motivational"; "educational";
                         "storytelling"; "thought-leadership"])) as [Hin|Hout'].
  { repeat (apply elem_of_cons in Hin as [->|Hin]); [..|by apply elem_of_nil in Hin];
      (split; [vm_compute; reflexivity|eexists; vm_compute; reflexivity]). }
  rewrite (tone_lookup_None _ Hout').
  rewrite (bool_decide_eq_false_2 (is_Some None)) by (intros [? ?]; discriminate).
  split; [vm_compute; reflexivity|eexists; vm_compute; reflexivity].
Qed.

End Catalogue.

(** ** The generation client *)

Section GeneratorFacts.

Import Generator.

Implicit Types (self : LinkedInPostGenerator) (sent : list request).
Implicit Types (post topic content line : string) (result : engagement).

(** C3: for a refinement kind that the lookup does not know, [refine_post]
    raises [ValueError], and the list of requests sent is what it was: the
    service is not contacted. *)
Theorem refine_post_rejects self post refinement_type sent :
  refinement_type ∉ refinement_kinds ->
  refine_post self post refinement_type sent
  = (Raise (ValueError ("Invalid refinement type: " +:+ refinement_type)), sent).
Proof.
  intros Hk. unfold refine_post, mbind, M_bind, lift.
  rewrite (get_refinement_prompt_unknown _ post Hk). reflexivity.
Qed.

Lemma refine_post_rejects_witness :
  ("shorten" ∉ refinement_kinds)
  /\ refine_post (answering "Shorter.") "We shipped a thing." "shorten" []
     = (Raise (ValueError "Invalid refinement type: shorten"), []).
Proof.
  assert ("shorten" ∉ refinement_kinds) as Hk.
  { unfold refinement_kinds. rewrite !not_elem_of_cons.
    repeat split; try discriminate. apply not_elem_of_nil. }
  split; [exact Hk|].
  exact (refine_post_rejects (answering "Shorter.") "We shipped a thing." "shorten" [] Hk).
Defined.

(** *** [generate_hashtags] *)

Lemma filter_tokens (keep : string -> bool) ws :
  Forall token ws -> Forall token (List.filter keep ws).
Proof.
  induction 1 as [|w ws Hw Hws IH]; simpl; [constructor|].
  destruct (keep w); [by constructor|done].
Qed.

(** C6: when the reply, as [_call_groq_api] returns it, does not start with
    [#], [generate_hashtags] returns the tokens of the reply that start with
    [#], in their order, with one space between two of them: the tokens of
    the result are those tokens and no other.  For the reply
    ["Sure! #Tech #AI rocks #Growth"] that is ["#Tech #AI #Growth"]. *)
Theorem generate_hashtags_recovers self topic sent content :
  (forall req, client self sent req = Ok content) ->
  PyStr.startswith (PyStr.strip content) "#" = false ->
  (exists req,
      generate_hashtags self topic sent
      = (Ok (PyStr.join " " (List.filter is_hashtag (PyStr.split (PyStr.strip content)))),
         sent ++ [req]))
  /\ PyStr.split (PyStr.join " " (List.filter is_hashtag (PyStr.split (PyStr.strip content))))
     = List.filter is_hashtag (PyStr.split (PyStr.strip content))
  /\ PyStr.join " " (List.filter is_hashtag (PyStr.split "Sure! #Tech #AI rocks #Growth"))
     = "#Tech #AI #Growth".
Proof.
  intros Hreply Hstart. split; [|split; [|reflexivity]].
  - unfold generate_hashtags, mbind, M_bind, lift, _call_groq_api.
    assert (exists prompt, Prompts.get_hashtag_prompt topic = Ok prompt) as [prompt ->]
      by (eexists; vm_compute; reflexivity).
    rewrite Hreply, strip_idem, Hstart. cbn [negb]. eexists. reflexivity.
  - apply split_join, filter_tokens, split_tokens.
Qed.

Lemma generate_hashtags_recovers_witness :
  exists req,
    generate_hashtags (answering "Sure! #Tech #AI rocks #Growth") "technology" []
    = (Ok "#Tech #AI #Growth", [req]).
Proof.
  destruct (generate_hashtags_recovers (answering "Sure! #Tech #AI rocks #Growth")
              "technology" [] "Sure! #Tech #AI rocks #Growth"
              (fun _ => eq_refl) eq_refl) as [[req Hrun] _].
  exists req. exact Hrun.
Defined.

(** *** [predict_engagement] *)

Lemma startswith_excluded s p q :
  PyStr.startswith s p = true ->
  PyStr.startswith p q || PyStr.startswith q p = false ->
  PyStr.startswith s q = false.
Proof.
  intros Hp Hpq. destruct (PyStr.startswith s q) eqn:Hq; [|done].
  by rewrite (startswith_compatible s p q Hp Hq) in Hpq.
Qed.

Lemma startswith_inv s p :
  PyStr.startswith s p = true -> exists rest, s = p +:+ rest.
Proof.
  revert s. induction p as [|a p IH]; intros s; simpl.
  - intros _. by exists s.
  - destruct s as [|b s]; [done|].
    destruct (Ascii.eqb_spec a b) as [->|]; [|done].
    intros [rest ->]%IH. by exists rest.
Qed.

(** Once a line is known to start with one prefix, the tests for the other
    prefixes are settled. *)
Ltac settle E :=
  repeat match goal with
    | |- context [PyStr.startswith ?l ?q] =>
        rewrite (startswith_excluded l _ q E eq_refl)
    end.

(** The case of a line that bears the prefix of a field, [E] saying so. *)
Ltac scored_line E :=
  match goal with
  | |- context [score ?l] =>
      destruct (score l) as [v|]; cbn [fmap option_fmap option_map];
      [|rewrite ?E, ?orb_true_r; done];
      split; [by rewrite andb_false_r|];
      intros result; split; [|split; [settle E|]; reflexivity];
      intros []; cbn [prefix_of]; rewrite ?E; settle E; reflexivity
  end.

Lemma assignment_spec line :
  match assignment line with
  | Some assign => malformed line = false /\ turn_spec line assign
  | None => malformed line = true
  end.
Proof.
  unfold assignment, malformed, turn_spec, scored, predicted, fields.
  set (l := PyStr.strip line). cbn [existsb prefix_of].
  destruct (PyStr.startswith l "Hook:") eqn:E1; [scored_line E1|].
  destruct (PyStr.startswith l "Content:") eqn:E2; [scored_line E2|].
  destruct (PyStr.startswith l "Readability:") eqn:E3; [scored_line E3|].
  destruct (PyStr.startswith l "CTA:") eqn:E4; [scored_line E4|].
  destruct (PyStr.startswith l "Authenticity:") eqn:E5; [scored_line E5|].
  destruct (PyStr.startswith l "Total:") eqn:E6; [scored_line E6|].
  cbn [orb andb].
  destruct (PyStr.startswith l "Prediction:") eqn:E7.
  - destruct (startswith_inv _ _ E7) as [rest ->].
    assert (PyStr.split_sep_max ":" 1 ("Prediction:" +:+ rest) !! 1%nat = Some rest) as ->
      by (destruct rest; reflexivity).
    split; [done|]. intros result.
    split; [intros []; cbn [prefix_of]; rewrite ?E1, ?E2, ?E3, ?E4, ?E5, ?E6; reflexivity|].
    split; reflexivity.
  - split; [done|]. intros result.
    split; [intros []; cbn [prefix_of]; rewrite ?E1, ?E2, ?E3, ?E4, ?E5, ?E6; reflexivity|].
    split; reflexivity.
Qed.

Lemma last_cons_default {A} (a d : A) (l : list A) :
  List.last (a :: l) d = List.last l a.
Proof.
  revert a d. induction l as [|b l IH]; intros a d; [reflexivity|].
  change (List.last (a :: b :: l) d) with (List.last (b :: l) d).
  by rewrite (IH b d), (IH b a).
Qed.

Lemma last_omap_cons {A B} (f : A -> option B) (a : A) (l : list A) (d : B) :
  List.last (omap f (a :: l)) d = List.last (omap f l) (default d (f a)).
Proof. cbn [omap list_omap]. destruct (f a); [apply last_cons_default|reflexivity]. Qed.

(** The loop reads the lines up to the first malformed one, and the last
    line read that sets a field decides the field. *)
Lemma for_lines_spec lines : forall result,
  (forall f, get f (for_lines lines result).1
             = List.last (omap (scored f) (leading lines)) (get f result))
  /\ prediction (for_lines lines result).1
     = List.last (omap predicted (leading lines)) (prediction result)
  /\ details (for_lines lines result).1 = details result.
Proof.
  induction lines as [|line lines IH]; intros result; [done|].
  cbn [for_lines leading]. pose proof (assignment_spec line) as Hturn.
  destruct (assignment line) as [assign|].
  - destruct Hturn as [-> Hturn]. destruct (Hturn result) as (Hf & Hp & Hd).
    destruct (IH (assign result)) as (IHf & IHp & IHd).
    split; [|split].
    + intros f. by rewrite last_omap_cons, IHf, Hf.
    + by rewrite last_omap_cons, IHp, Hp.
    + by rewrite IHd.
  - by rewrite Hturn.
Qed.

(** C1, as the code has it: whatever the reply, [predict_engagement] returns
    a result and does not raise.  The lines of the reply are read up to the
    first malformed one (a line with the prefix of a score whose value
    [int] refuses: no integer literal, or one of more than 4300 digits),
    which ends the reading: each score is that of the last line
    read that bears its prefix, and 0 when there is none; the label is that
    of the last [Prediction:] line read, and [Unknown] when there is none;
    the details are the reply. *)
Theorem predict_engagement_best_effort self post sent content :
  (forall req, client self sent req = Ok content) ->
  exists req result,
    predict_engagement self post sent = (Ok result, sent ++ [req])
    /\ (forall f, get f result
          = List.last (omap (scored f)
              (leading (PyStr.split_sep newline (PyStr.strip content)))) 0%Z)
    /\ prediction result
       = List.last (omap predicted
           (leading (PyStr.split_sep newline (PyStr.strip content)))) "Unknown"
    /\ details result = PyStr.strip content.
Proof.
  intros Hreply.
  unfold predict_engagement, mbind, M_bind, lift, _call_groq_api.
  assert (exists prompt, Prompts.get_engagement_score_prompt post = Ok prompt)
    as [prompt ->] by (eexists; vm_compute; reflexivity).
  rewrite Hreply.
  match goal with
  | |- context [for_lines ?lines ?init] =>
      pose proof (for_lines_spec lines init) as Hspec;
      destruct (for_lines lines init) as [result ended]
  end.
  destruct Hspec as (Hf & Hp & Hd).
  eexists _, result. split; [reflexivity|]. split; [|split; [exact Hp|exact Hd]].
  intros f. rewrite Hf. by destruct f.
Qed.

(** A reply with no [Readability:] line and no malformed line: the
    readability stays 0 and the other fields are filled. *)
Lemma predict_engagement_best_effort_witness :
  exists req result,
    predict_engagement
      (answering "Hook: 20/25 - strong opening
Content: 18/25 - useful
CTA: 10/15 - asks a question
Authenticity: 12/15 - personal
Total: 60/100
Prediction: Good") "We shipped." [] = (Ok result, [req])
    /\ readability result = 0%Z
    /\ (hook result, content result, cta result, authenticity result, total result)
       = (20, 18, 10, 12, 60)%Z
    /\ prediction result = "Good".
Proof.
  destruct (predict_engagement_best_effort
    (answering "Hook: 20/25 - strong opening
Content: 18/25 - useful
CTA: 10/15 - asks a question
Authenticity: 12/15 - personal
Total: 60/100
Prediction: Good") "We shipped." [] _ (fun _ => eq_refl))
    as (req & result & Hrun & Hfields & Hlabel & _).
  exists req, result. split; [exact Hrun|]. split; [exact (Hfields Readability)|].
  split; [|exact Hlabel].
  change ((get Hook result, get Content result, get CTA result,
           get Authenticity result, get Total result) = (20, 18, 10, 12, 60)%Z).
  by rewrite !Hfields.
Defined.

(** A malformed line ends the reading: the well-formed [Content:] line that
    follows a malformed [Hook:] line is not read, and the content stays 0. *)
Lemma line_after_malformed_is_lost :
  scored Content "Content: 20/25" = Some 20%Z
  /\ exists req result,
      predict_engagement (answering "Hook: high/25
Content: 20/25") "We shipped." [] = (Ok result, [req])
      /\ content result = 0%Z.
Proof. split; [reflexivity|]. eexists _, _. split; [vm_compute|]; reflexivity. Qed.

(** A score of more than 4300 digits is malformed too: [int] raises for it,
    and the reading ends there. *)
Example long_score_ends_reading :
  malformed ("Hook: " +:+ run "1" 4300 +:+ "/25") = false
  /\ malformed ("Hook: " +:+ run "1" 4301 +:+ "/25") = true
  /\ exists req result,
      predict_engagement (answering ("Hook: " +:+ run "1" 4301 +:+ "/25
Content: 20/25")) "We shipped." [] = (Ok result, [req])
      /\ hook result = 0%Z /\ content result = 0%Z.
Proof.
  split; [vm_compute; reflexivity|]. split; [vm_compute; reflexivity|].
  eexists _, _. split; [vm_compute; reflexivity|]. split; reflexivity.
Qed.

End GeneratorFacts.

(** ** Floats: rounding is monotone *)

Section FloatFacts.

Import PyFloat.

Local Open Scope Q_scope.

Implicit Types (x y : Q) (n d : positive) (e k : Z).

Lemma pow2_pos e : 0 < pow2 e.
Proof. apply Qpower_0_lt. reflexivity. Qed.

Lemma pow2_add a b : pow2 (a + b) == pow2 a * pow2 b.
Proof. apply Qpower_plus. discriminate. Qed.

Lemma pow2_le a b : (a <= b)%Z -> pow2 a <= pow2 b.
Proof. intros Hab. apply Qpower_le_compat_l; [exact Hab|discriminate]. Qed.

Lemma pow2_inject a : (0 <= a)%Z -> pow2 a == inject_Z (2 ^ a).
Proof. intros Ha. symmetry. apply (Zpower_Qpower 2 a Ha). Qed.

Lemma Qmake_mult_den (n d : positive) : (Zpos n # d) * inject_Z (Zpos d) == inject_Z (Zpos n).
Proof. unfold Qeq, Qmult, inject_Z. simpl. lia. Qed.

Lemma Qmake_pos (n d : positive) : 0 < Zpos n # d.
Proof. unfold Qlt. simpl. lia. Qed.

(** [ilog2] is the binary exponent. *)
Lemma ilog2_spec n d :
  pow2 (ilog2 n d) <= Zpos n # d /\ Zpos n # d < pow2 (ilog2 n d + 1).
Proof.
  set (x := Zpos n # d). set (a := Z.log2 (Zpos n)). set (b := Z.log2 (Zpos d)).
  assert (0 <= a)%Z as Ha by apply Z.log2_nonneg.
  assert (0 <= b)%Z as Hb by apply Z.log2_nonneg.
  destruct (Z.log2_spec (Zpos n) eq_refl) as [Hn1 Hn2]. fold a in Hn1, Hn2.
  destruct (Z.log2_spec (Zpos d) eq_refl) as [Hd1 Hd2]. fold b in Hd1, Hd2.
  assert (0 < x) as Hx by apply Qmake_pos.
  pose proof (Qmake_mult_den n d) as Hxd. fold x in Hxd.
  assert (x < pow2 (a - b + 1)) as Hupper.
  { apply (Qmult_lt_r _ _ (pow2 b) (pow2_pos b)).
    rewrite <- pow2_add. replace (a - b + 1 + b)%Z with (Z.succ a) by lia.
    apply Qle_lt_trans with (x * inject_Z (Zpos d)).
    - apply Qmult_le_l; [exact Hx|]. rewrite pow2_inject by exact Hb.
      rewrite <- Zle_Qle. exact Hd1.
    - rewrite Hxd, pow2_inject by lia. rewrite <- Zlt_Qlt. exact Hn2. }
  assert (pow2 (a - b - 1) < x) as Hlower.
  { apply (Qmult_lt_r _ _ (pow2 (Z.succ b)) (pow2_pos _)).
    rewrite <- pow2_add. replace (a - b - 1 + Z.succ b)%Z with a by lia.
    apply Qle_lt_trans with (x * inject_Z (Zpos d)).
    - rewrite Hxd, pow2_inject by exact Ha. rewrite <- Zle_Qle. exact Hn1.
    - apply Qmult_lt_l; [exact Hx|]. rewrite pow2_inject by lia.
      rewrite <- Zlt_Qlt. exact Hd2. }
  unfold ilog2. fold a b x.
  destruct (Qle_bool (pow2 (a - b)) x) eqn:E.
  - split; [by apply Qle_bool_iff|exact Hupper].
  - split; [by apply Qlt_le_weak|].
    replace (a - b - 1 + 1)%Z with (a - b)%Z by lia.
    apply Qnot_le_lt. intros Hle. apply Qle_bool_iff in Hle. congruence.
Qed.

Lemma ilog2_mono n1 d1 n2 d2 :
  Zpos n1 # d1 <= Zpos n2 # d2 -> (ilog2 n1 d1 <= ilog2 n2 d2)%Z.
Proof.
  intros Hxy.
  destruct (ilog2_spec n1 d1) as [Hx _]. destruct (ilog2_spec n2 d2) as [_ Hy].
  destruct (Z.le_gt_cases (ilog2 n1 d1) (ilog2 n2 d2)) as [|Hgt]; [done|].
  exfalso. apply (Qlt_irrefl (pow2 (ilog2 n2 d2 + 1))).
  eapply Qle_lt_trans; [|exact Hy].
  eapply Qle_trans; [|exact Hxy]. eapply Qle_trans; [|exact Hx].
  apply pow2_le. lia.
Qed.

(** *** Rounding to an integer *)

Lemma rne_cases x : rne x = Qfloor x \/ rne x = (Qfloor x + 1)%Z.
Proof.
  unfold rne. destruct (_ ?= _); [destruct (Z.even _)|..]; auto.
Qed.

Lemma rne_mono x y : x <= y -> (rne x <= rne y)%Z.
Proof.
  intros Hxy. pose proof (Qfloor_resp_le x y Hxy) as Hf.
  destruct (Z.eq_dec (Qfloor x) (Qfloor y)) as [E|NE].
  - unfold rne. rewrite <- E.
    destruct (Qcompare_spec (x - inject_Z (Qfloor x)) (1 # 2)) as [Hx|Hx|Hx];
      destruct (Qcompare_spec (y - inject_Z (Qfloor x)) (1 # 2)) as [Hy|Hy|Hy];
      try (destruct (Z.even (Qfloor x))); try lia; exfalso; lra.
  - destruct (rne_cases x) as [-> | ->], (rne_cases y) as [-> | ->]; lia.
Qed.

Lemma rne_inject (z : Z) : rne (inject_Z z) = z.
Proof.
  unfold rne. rewrite Qfloor_Z.
  destruct (Qcompare_spec (inject_Z z - inject_Z z) (1 # 2)) as [H|H|H];
    [exfalso; lra|reflexivity|exfalso; lra].
Qed.

(** *** Rounding to binary64 *)

Lemma round_pos_eq n d :
  round_pos n d == inject_Z (significand n d) * pow2 (exponent n d).
Proof. unfold round_pos. apply Qred_correct. Qed.

Lemma scaled_lt x e k : x < pow2 k -> x / pow2 e < pow2 (k - e).
Proof.
  intros Hx. apply Qlt_shift_div_r; [apply pow2_pos|].
  rewrite <- pow2_add. by replace (k - e + e)%Z with k by lia.
Qed.

Lemma scaled_le x e k : pow2 k <= x -> pow2 (k - e) <= x / pow2 e.
Proof.
  intros Hx. apply Qle_shift_div_l; [apply pow2_pos|].
  rewrite <- pow2_add. by replace (k - e + e)%Z with k by lia.
Qed.

Lemma significand_upper n d : (significand n d <= 2 ^ 53)%Z.
Proof.
  unfold significand. destruct (ilog2_spec n d) as [_ Hx].
  rewrite <- (rne_inject (2 ^ 53)). apply rne_mono.
  rewrite <- pow2_inject by lia. apply Qlt_le_weak.
  eapply Qlt_le_trans; [apply scaled_lt, Hx|]. apply pow2_le.
  unfold exponent. lia.
Qed.

Lemma significand_lower n d :
  exponent n d = (ilog2 n d - 52)%Z -> (2 ^ 52 <= significand n d)%Z.
Proof.
  intros He. unfold significand. destruct (ilog2_spec n d) as [Hx _].
  rewrite <- (rne_inject (2 ^ 52)). apply rne_mono.
  rewrite <- pow2_inject by lia.
  eapply Qle_trans; [|apply scaled_le, Hx]. apply pow2_le. lia.
Qed.

Lemma significand_nonneg n d : (0 <= significand n d)%Z.
Proof.
  unfold significand. rewrite <- (rne_inject 0). apply rne_mono.
  apply Qle_shift_div_l; [apply pow2_pos|]. rewrite Qmult_0_l.
  apply Qlt_le_weak, Qmake_pos.
Qed.

Lemma round_pos_nonneg n d : 0 <= round_pos n d.
Proof.
  rewrite round_pos_eq. apply Qmult_le_0_compat.
  - rewrite <- (Zle_Qle 0). apply significand_nonneg.
  - apply Qlt_le_weak, pow2_pos.
Qed.

Lemma round_pos_mono n1 d1 n2 d2 :
  Zpos n1 # d1 <= Zpos n2 # d2 -> round_pos n1 d1 <= round_pos n2 d2.
Proof.
  intros Hxy. rewrite !round_pos_eq.
  pose proof (ilog2_mono _ _ _ _ Hxy) as Hk.
  destruct (Z.eq_dec (exponent n1 d1) (exponent n2 d2)) as [E|NE].
  - apply Qmult_le_compat_nonneg.
    + split; [rewrite <- (Zle_Qle 0); apply significand_nonneg|].
      rewrite <- Zle_Qle. unfold significand. rewrite E. apply rne_mono.
      apply Qmult_le_compat_r; [exact Hxy|]. apply Qlt_le_weak, Qinv_lt_0_compat, pow2_pos.
    + split; [apply Qlt_le_weak, pow2_pos|]. rewrite E. apply Qle_refl.
  - assert (exponent n1 d1 < exponent n2 d2)%Z as Hlt by (unfold exponent in *; lia).
    assert (exponent n2 d2 = (ilog2 n2 d2 - 52)%Z) as He2 by (unfold exponent in *; lia).
    apply Qle_trans with (pow2 (53 + exponent n1 d1)).
    + rewrite pow2_add, (pow2_inject 53) by lia.
      apply Qmult_le_compat_r; [|apply Qlt_le_weak, pow2_pos].
      rewrite <- Zle_Qle. apply significand_upper.
    + apply Qle_trans with (pow2 (52 + exponent n2 d2)); [apply pow2_le; lia|].
      rewrite pow2_add, (pow2_inject 52) by lia.
      apply Qmult_le_compat_r; [|apply Qlt_le_weak, pow2_pos].
      rewrite <- Zle_Qle. by apply significand_lower.
Qed.

Lemma round_nonneg x : 0 <= x -> 0 <= round x.
Proof.
  destruct x as [[|n|n] d]; unfold round; cbn [Qnum Qden]; intros Hx.
  - apply Qle_refl.
  - apply round_pos_nonneg.
  - exfalso. unfold Qle in Hx. simpl in Hx. lia.
Qed.

(** On the floats that are not negative, rounding keeps the order. *)
Lemma round_mono x y : 0 <= x -> x <= y -> round x <= round y.
Proof.
  intros Hx Hxy.
  destruct x as [[|n1|n1] d1]; [apply round_nonneg; lra| |exfalso; revert Hx; unfold Qle; simpl; lia].
  destruct y as [[|n2|n2] d2]; try (exfalso; revert Hxy; unfold Qle; simpl; lia).
  unfold round. cbn [Qnum Qden]. by apply round_pos_mono.
Qed.

Lemma to_int_floor x : 0 <= x -> to_int x = Qfloor x.
Proof.
  destruct x as [p q]. unfold to_int, Qfloor, Qle. simpl. intros Hp.
  apply Z.quot_div_nonneg; lia.
Qed.

Lemma to_int_mono x y : 0 <= x -> x <= y -> (to_int x <= to_int y)%Z.
Proof.
  intros Hx Hxy. rewrite !to_int_floor by lra. by apply Qfloor_resp_le.
Qed.

End FloatFacts.

(** ** Read time and relative time *)

Section TimeFacts.

Import Utils.

Lemma count_words_nonneg (text : string) : (0 <= count_words text)%Z.
Proof. unfold count_words. destruct text; lia. Qed.

(** The seconds [estimate_read_time] computes from a word count. *)
Lemma estimate_read_time_eq (text : string) (words_per_minute : Z) :
  (0 < words_per_minute)%Z ->
  estimate_read_time text words_per_minute
  = Ok (PyFloat.to_int
          (PyFloat.mul (PyFloat.int_truediv (count_words text) words_per_minute)
             (PyFloat.of_int 60))).
Proof.
  intros Hwpm. unfold estimate_read_time.
  destruct (Z.eqb_spec words_per_minute 0) as [->|_]; [lia|reflexivity].
Qed.

Lemma truediv_nonneg (a b : Z) :
  (0 <= a)%Z -> (0 < b)%Z -> (0 <= inject_Z a / inject_Z b)%Q.
Proof.
  intros Ha Hb. apply Qle_shift_div_l.
  - rewrite <- (Zlt_Qlt 0). exact Hb.
  - rewrite Qmult_0_l, <- (Zle_Qle 0). exact Ha.
Qed.

(** C8: for a positive reading speed, [estimate_read_time] returns for both
    texts, and the text with no more words gets no more seconds. *)
Theorem estimate_read_time_monotone (t1 t2 : string) (words_per_minute : Z) :
  (0 < words_per_minute)%Z ->
  (count_words t1 <= count_words t2)%Z ->
  exists s1 s2,
    estimate_read_time t1 words_per_minute = Ok s1
    /\ estimate_read_time t2 words_per_minute = Ok s2
    /\ (s1 <= s2)%Z.
Proof.
  intros Hwpm Hwords. rewrite !estimate_read_time_eq by exact Hwpm.
  eexists _, _. split; [reflexivity|]. split; [reflexivity|].
  pose proof (count_words_nonneg t1) as H1.
  assert (0 <= PyFloat.of_int 60)%Q as H60 by (vm_compute; discriminate).
  unfold PyFloat.mul, PyFloat.int_truediv.
  assert (0 <= inject_Z (count_words t1) / inject_Z words_per_minute)%Q as Hq1
    by (apply truediv_nonneg; [exact H1|exact Hwpm]).
  apply to_int_mono.
  - apply round_nonneg, Qmult_le_0_compat; [by apply round_nonneg|exact H60].
  - apply round_mono.
    + apply Qmult_le_0_compat; [by apply round_nonneg|exact H60].
    + apply Qmult_le_compat_r; [|exact H60]. apply round_mono; [exact Hq1|].
      apply Qmult_le_compat_r.
      * rewrite <- Zle_Qle. exact Hwords.
      * apply Qlt_le_weak, Qinv_lt_0_compat. rewrite <- (Zlt_Qlt 0). exact Hwpm.
Qed.

Lemma estimate_read_time_monotone_witness :
  exists s1 s2,
    estimate_read_time "Ship it" 200 = Ok s1
    /\ estimate_read_time "Ship it today, not tomorrow" 200 = Ok s2
    /\ (s1 <= s2)%Z.
Proof.
  apply (estimate_read_time_monotone "Ship it" "Ship it today, not tomorrow" 200).
  - reflexivity.
  - vm_compute. discriminate.
Defined.

(** The float model rounds as Python does: 49 words at 3 words a minute are
    979 seconds (the exact quotient would give 980), 5 words at 300 are 1. *)
Example estimate_read_time_rounds :
  PyFloat.to_int (PyFloat.mul (PyFloat.int_truediv 49 3) (PyFloat.of_int 60)) = 979%Z
  /\ estimate_read_time "a b c d e" 300 = Ok 1%Z
  /\ estimate_read_time "a b c" 0 = Raise (ZeroDivisionError "division by zero").
Proof. repeat split; vm_compute; reflexivity. Qed.

(** C7: for a timestamp that [strptime] accepts, [get_relative_time] says
    [just now] when the timestamp is 59 seconds before [now], [1 minute ago]
    when it is 60 seconds before, and [1 hour ago] when it is 3600 seconds
    before. *)
Theorem get_relative_time_boundaries (now dt : PyDatetime.datetime) (timestamp : string) :
  PyDatetime.strptime timestamp = Some dt ->
  (PyDatetime.sub now dt = 59000000%Z -> get_relative_time now timestamp = "just now")
  /\ (PyDatetime.sub now dt = 60000000%Z -> get_relative_time now timestamp = "1 minute ago")
  /\ (PyDatetime.sub now dt = 3600000000%Z -> get_relative_time now timestamp = "1 hour ago").
Proof.
  intros Hparse. unfold get_relative_time. rewrite Hparse.
  split; [|split]; intros ->; vm_compute; reflexivity.
Qed.

Lemma get_relative_time_boundaries_witness :
  get_relative_time (at_time 10 0 59) "2024-01-05 10:00:00" = "just now"
  /\ get_relative_time (at_time 10 1 0) "2024-01-05 10:00:00" = "1 minute ago"
  /\ get_relative_time (at_time 11 0 0) "2024-01-05 10:00:00" = "1 hour ago".
Proof.
  split; [|split].
  - exact (proj1 (get_relative_time_boundaries (at_time 10 0 59) (at_time 10 0 0)
                    "2024-01-05 10:00:00" eq_refl) eq_refl).
  - exact (proj1 (proj2 (get_relative_time_boundaries (at_time 10 1 0) (at_time 10 0 0)
                    "2024-01-05 10:00:00" eq_refl)) eq_refl).
  - exact (proj2 (proj2 (get_relative_time_boundaries (at_time 11 0 0) (at_time 10 0 0)
                    "2024-01-05 10:00:00" eq_refl)) eq_refl).
Defined.

End TimeFacts.

(** * Further properties of the generation client *)

Section ClientFacts.

Import Generator.

Implicit Types (self : LinkedInPostGenerator) (sent : list request).
Implicit Types (post topic tone length post_type content : string).

Lemma call_relays self prompt temp max_tok sent :
  _call_groq_api self prompt Prompts.SYSTEM_PROMPT temp max_tok sent
  = (relayed (client self sent (request_of self prompt temp max_tok)),
     sent ++ [request_of self prompt temp max_tok]).
Proof. unfold _call_groq_api, relayed, request_of. by destruct (client _ _ _). Qed.

(** The cases of a key of a table, then the case of a key that is in none
    of them. *)
Ltac by_keys Hin :=
  repeat (apply elem_of_cons in Hin as [->|Hin]); [..|by apply elem_of_nil in Hin].

Lemma get_post_prompt_ok tone topic length post_type :
  exists prompt, Prompts.get_post_prompt tone topic length post_type = Ok prompt.
Proof.
  destruct (decide (post_type ∈
    ["announcement"; "tips"; "question"; "achievement"; "industry_insight"])) as [Hin|Hout].
  { by_keys Hin; eexists; vm_compute; reflexivity. }
  unfold Prompts.get_post_prompt.
  rewrite (post_type_lookup_None _ Hout).
  rewrite (bool_decide_eq_false_2 (is_Some None)) by (intros [? ?]; discriminate).
  rewrite andb_false_r.
  generalize (PyStr.lower tone). intros t.
  destruct (decide (t ∈ ["professional"; "casual"; "motivational"; "educational";
                         "storytelling"; "thought-leadership"])) as [Hin|Hout'].
  { by_keys Hin; eexists; vm_compute; reflexivity. }
  rewrite (tone_lookup_None _ Hout').
  rewrite (bool_decide_eq_false_2 (is_Some None)) by (intros [? ?]; discriminate).
  eexists; vm_compute; reflexivity.
Qed.

Lemma get_refinement_prompt_known k post :
  k ∈ refinement_kinds ->
  exists c p, Prompts.get_refinement_prompt k post = Ok (Some (String c p)).
Proof.
  unfold refinement_kinds. intros Hin.
  by_keys Hin; eexists _, _; vm_compute; reflexivity.
Qed.

(** X1: a topic that is empty or white space only is refused by
    [generate_post] with [ValueError], and no request is sent. *)
Theorem generate_post_blank_topic self topic tone length post_type sent :
  PyStr.strip topic = EmptyString ->
  generate_post self topic tone length post_type sent
  = (Raise (ValueError "Topic cannot be empty"), sent).
Proof.
  intros Hblank. unfold generate_post. rewrite Hblank.
  by rewrite orb_true_r.
Qed.

Lemma generate_post_blank_topic_witness :
  generate_post (answering "A post.") "  " "casual" "short" "tips" []
  = (Raise (ValueError "Topic cannot be empty"), []).
Proof.
  exact (generate_post_blank_topic (answering "A post.") "  " "casual" "short" "tips" []
           eq_refl).
Defined.

(** X2: for any other topic [generate_post] sends one request, which
    carries the prompt of [get_post_prompt], the temperature 0.8 and the limit
    of 1500 tokens, and returns the answer stripped, or the exception of the
    service inside an [Exception]; it does not send a second request. *)
Theorem generate_post_one_request self topic tone length post_type sent :
  PyStr.strip topic <> EmptyString ->
  exists prompt,
    Prompts.get_post_prompt tone topic length post_type = Ok prompt
    /\ generate_post self topic tone length post_type sent
       = (relayed (client self sent (request_of self prompt (8 # 10) 1500)),
          sent ++ [request_of self prompt (8 # 10) 1500]).
Proof.
  intros Htopic. destruct (get_post_prompt_ok tone topic length post_type) as [prompt Hp].
  exists prompt. split; [exact Hp|].
  unfold generate_post.
  assert (PyStr.nonempty topic = true) as -> by (destruct topic; [done|reflexivity]).
  destruct (String.eqb_spec (PyStr.strip topic) "") as [E|_]; [done|].
  cbn [negb orb]. unfold mbind, M_bind, lift. rewrite Hp. apply call_relays.
Qed.

Lemma generate_post_one_request_witness :
  exists prompt req,
    Prompts.get_post_prompt "casual" "remote work" "short" "tips" = Ok prompt
    /\ generate_post (answering " A post. ") "remote work" "casual" "short" "tips" []
       = (Ok "A post.", [req]).
Proof.
  destruct (generate_post_one_request (answering " A post. ") "remote work" "casual"
              "short" "tips" []) as [prompt [Hp Hrun]]; [discriminate|].
  exists prompt, (request_of (answering " A post. ") prompt (8 # 10) 1500).
  split; [exact Hp|exact Hrun].
Defined.

(** X3: for a kind of the table [refine_post] sends one request, with the
    temperature 0.7 and the limit of 1500 tokens, and returns the answer
    stripped, or the exception of the service inside an [Exception]. *)
Theorem refine_post_one_request self post refinement_type sent :
  refinement_type ∈ refinement_kinds ->
  exists prompt,
    Prompts.get_refinement_prompt refinement_type post = Ok (Some prompt)
    /\ refine_post self post refinement_type sent
       = (relayed (client self sent (request_of self prompt (7 # 10) 1500)),
          sent ++ [request_of self prompt (7 # 10) 1500]).
Proof.
  intros Hk. destruct (get_refinement_prompt_known _ post Hk) as (c & p & Hp).
  exists (String c p). split; [exact Hp|].
  unfold refine_post, mbind, M_bind, lift. rewrite Hp. apply call_relays.
Qed.

Lemma refine_post_one_request_witness :
  exists prompt req,
    Prompts.get_refinement_prompt "make_shorter" "We shipped a thing." = Ok (Some prompt)
    /\ refine_post (answering "Shipped.") "We shipped a thing." "make_shorter" []
       = (Ok "Shipped.", [req]).
Proof.
  destruct (refine_post_one_request (answering "Shipped.") "We shipped a thing."
              "make_shorter" []) as [prompt [Hp Hrun]].
  { constructor. }
  exists prompt, (request_of (answering "Shipped.") prompt (7 # 10) 1500).
  split; [exact Hp|exact Hrun].
Defined.

(** *** [generate_variations] *)

Lemma variations_loop_run self topic tone length prompt :
  Prompts.get_post_prompt tone topic length "general" = Ok prompt ->
  (forall sent' req, exists content, client self sent' req = Ok content) ->
  forall n i variations sent,
    (i + n <= 3)%nat ->
    exists posts,
      variations_loop self topic tone length (seq i n) variations sent
      = (Ok (variations ++ posts),
         sent ++ map (fun temp => request_of self prompt temp 1500)
                   (firstn n (skipn i temperatures)))
      /\ List.length posts = n.
Proof.
  intros Hp Hanswers. induction n as [|n IH]; intros i variations sent Hi.
  - exists []. by rewrite !app_nil_r.
  - cbn [seq variations_loop]. unfold mbind at 1, M_bind at 1, lift at 1. rewrite Hp.
    assert (exists temp, temperatures !! i = Some temp
                         /\ skipn i temperatures = temp :: skipn (S i) temperatures)
      as (temp & Htemp & Hskip).
    { destruct i as [|[|[|i]]]; [eexists; split; reflexivity..|lia]. }
    unfold mbind at 1, M_bind at 1, lift at 1, item. rewrite Htemp.
    unfold mbind at 1, M_bind at 1. rewrite call_relays.
    destruct (Hanswers sent (request_of self prompt temp 1500)) as [content ->].
    cbn [relayed].
    destruct (IH (S i) (variations ++ [PyStr.strip content])
                (sent ++ [request_of self prompt temp 1500])) as (posts & Hrun & Hlen);
      [lia|].
    exists (PyStr.strip content :: posts). split; [|by rewrite <- Hlen].
    rewrite Hrun, Hskip. cbn [firstn map]. by rewrite <- !app_assoc.
Qed.

(** X4: when the service answers every request, [generate_variations]
    returns [min(count, 3)] posts (none for a count of 0 or less) and sends
    as many requests, all with the prompt of the default post type, and with
    the temperatures 0.7, 0.85 and 0.95 in this order. *)
Theorem generate_variations_capped self topic tone length count sent :
  (forall sent' req, exists content, client self sent' req = Ok content) ->
  exists prompt posts,
    Prompts.get_post_prompt tone topic length "general" = Ok prompt
    /\ generate_variations self topic tone length count sent
       = (Ok posts,
          sent ++ map (fun temp => request_of self prompt temp 1500)
                    (firstn (Z.to_nat (Z.min count 3)) temperatures))
    /\ List.length posts = Z.to_nat (Z.min count 3).
Proof.
  intros Hanswers.
  destruct (get_post_prompt_ok tone topic length "general") as [prompt Hp].
  destruct (variations_loop_run self topic tone length prompt Hp Hanswers
              (Z.to_nat (Z.min count 3)) 0 [] sent) as (posts & Hrun & Hlen); [lia|].
  exists prompt, posts. split; [exact Hp|]. split; [exact Hrun|exact Hlen].
Qed.

Lemma generate_variations_capped_witness :
  exists prompt posts,
    Prompts.get_post_prompt "casual" "remote work" "short" "general" = Ok prompt
    /\ generate_variations (answering "A post.") "remote work" "casual" "short" 5 []
       = (Ok posts,
          [request_of (answering "A post.") prompt (7 # 10) 1500;
           request_of (answering "A post.") prompt (85 # 100) 1500;
           request_of (answering "A post.") prompt (95 # 100) 1500])
    /\ List.length posts = 3%nat.
Proof.
  exact (generate_variations_capped (answering "A post.") "remote work" "casual" "short"
           5 [] (fun _ _ => ex_intro _ "A post." eq_refl)).
Defined.

(** *** [generate_hooks] and [generate_cta] *)

Lemma split_once c after before : forall piece,
  lacks c before ->
  PyStr.split_sep_from c (Some 1) piece (before +:+ String c after) !! 1%nat = Some after.
Proof.
  unfold lacks. induction before as [|a before IH]; intros piece.
  - intros _. rewrite append_nil_l. cbn [PyStr.split_sep_from].
    rewrite Ascii.eqb_refl. by destruct after.
  - cbn [PyStr.contains]. intros [Ha Hbefore]%orb_false_iff.
    rewrite append_cons. cbn [PyStr.split_sep_from]. rewrite Ha. by apply IH.
Qed.

Lemma contains_cut c s :
  PyStr.contains c s = true ->
  exists before after, lacks c before /\ s = before +:+ String c after.
Proof.
  induction s as [|a s IH]; [done|]. cbn [PyStr.contains].
  destruct (Ascii.eqb_spec a c) as [->|Hne].
  - intros _. by exists EmptyString, s.
  - cbn [orb]. intros (before & after & Hbefore & ->)%IH.
    exists (String a before), after. split; [|done].
    unfold lacks. cbn [PyStr.contains]. apply orb_false_iff. split; [|done].
    by apply Ascii.eqb_neq.
Qed.

(** [line.split(sep, 1)[1].strip() if sep in line else whole(line)] raises
    for no line, and gives the text of the line. *)
Lemma text_of_line sep whole line :
  exists text,
    (if PyStr.contains sep line
     then PyStr.strip <$> item (PyStr.split_sep_max sep 1 line) 1
     else Ok (whole line)) = Ok text
    /\ text_of sep whole line text.
Proof.
  destruct (PyStr.contains sep line) eqn:E.
  - destruct (contains_cut _ _ E) as (before & after & Hbefore & ->).
    unfold item, PyStr.split_sep_max. rewrite (split_once _ _ _ _ Hbefore).
    eexists. split; [reflexivity|]. by constructor.
  - eexists. split; [reflexivity|]. by constructor.
Qed.

Lemma hooks_loop_texts lines : forall hooks,
  exists found,
    hooks_loop lines hooks = Ok (hooks ++ found)
    /\ Forall2 hook_of
         (List.filter (fun line => PyStr.startswith (PyStr.strip line) "Hook") lines)
         found.
Proof.
  induction lines as [|line lines IH]; intros hooks; cbn [hooks_loop List.filter].
  - exists []. by rewrite app_nil_r.
  - destruct (PyStr.startswith (PyStr.strip line) "Hook").
    + destruct (text_of_line ":" (fun line => line) line) as (text & Htext & Hof).
      unfold hook_text. rewrite Htext. cbn [mbind res_bind].
      destruct (IH (hooks ++ [text])) as (found & -> & Hfound).
      exists (text :: found). split; [by rewrite <- app_assoc|]. by constructor.
    + apply IH.
Qed.

Lemma ctas_loop_texts lines : forall ctas,
  exists found,
    ctas_loop lines ctas = Ok (ctas ++ found)
    /\ Forall2 cta_of (List.filter is_cta_line (map PyStr.strip lines)) found.
Proof.
  induction lines as [|line lines IH]; intros ctas;
    cbn [ctas_loop List.filter map].
  - exists []. by rewrite app_nil_r.
  - destruct (is_cta_line (PyStr.strip line)).
    + destruct (text_of_line "." (PyStr.strip_chars "- ") (PyStr.strip line))
        as (text & Htext & Hof).
      unfold cta_text. rewrite Htext. cbn [mbind res_bind].
      destruct (IH (ctas ++ [text])) as (found & -> & Hfound).
      exists (text :: found). split; [by rewrite <- app_assoc|]. by constructor.
    + apply IH.
Qed.

(** What the methods return of the texts found: the texts, or the reply
    when there is none. *)
Lemma texts_or_reply (rel : string -> string -> Prop) (lines found : list string)
    (reply : string) :
  Forall2 rel lines found ->
  let texts := match found with [] => [reply] | _ => found end in
  texts <> []
  /\ (lines = [] -> texts = [reply])
  /\ (lines <> [] -> Forall2 rel lines texts).
Proof.
  intros Hfound. destruct Hfound as [|line text lines found Hof Hfound]; cbn.
  - by split; [|split].
  - split; [done|]. split; [done|]. intros _. by constructor.
Qed.

(** X5: when the service answers, [generate_hooks] sends one request, with
    the prompt of [get_hook_prompt], the temperature 0.9 and the limit of 300
    tokens, and raises for no reply.  It returns a list that is not empty:
    one hook for each line of the reply that starts with [Hook], in their
    order, a line with no colon taken whole, as it is, and of a line with a
    colon what follows the first colon, stripped; when no line starts with
    [Hook], the list holds the reply itself. *)
Theorem generate_hooks_never_empty self topic sent content :
  (forall req, client self sent req = Ok content) ->
  exists prompt hooks,
    Prompts.get_hook_prompt topic = Ok prompt
    /\ generate_hooks self topic sent
       = (Ok hooks, sent ++ [request_of self prompt (9 # 10) 300])
    /\ hooks <> []
    /\ (hook_lines (PyStr.strip content) = [] -> hooks = [PyStr.strip content])
    /\ (hook_lines (PyStr.strip content) <> [] ->
        Forall2 hook_of (hook_lines (PyStr.strip content)) hooks).
Proof.
  intros Hreply. unfold generate_hooks, mbind, M_bind, lift.
  assert (exists prompt, Prompts.get_hook_prompt topic = Ok prompt) as [prompt Hprompt]
    by (eexists; vm_compute; reflexivity).
  rewrite Hprompt, call_relays, Hreply. cbn [relayed].
  destruct (hooks_loop_texts (PyStr.split_sep newline (PyStr.strip content)) [])
    as (found & -> & Hfound).
  cbn [app]. eexists _, _. split; [reflexivity|]. split; [reflexivity|].
  exact (texts_or_reply hook_of _ found (PyStr.strip content) Hfound).
Qed.

(** A reply of two hooks, the second with no colon, among other lines. *)
Lemma generate_hooks_never_empty_witness :
  exists prompt hooks,
    Prompts.get_hook_prompt "remote work" = Ok prompt
    /\ generate_hooks (answering "Here are your hooks:
Hook 1: Remote work is not a perk.
  Hook 2 - nobody misses the commute
") "remote work" []
       = (Ok hooks, [] ++ [request_of (answering "Here are your hooks:
Hook 1: Remote work is not a perk.
  Hook 2 - nobody misses the commute
") prompt (9 # 10) 300])
    /\ hooks <> []
    /\ (hook_lines (PyStr.strip "Here are your hooks:
Hook 1: Remote work is not a perk.
  Hook 2 - nobody misses the commute
") = [] -> hooks = [PyStr.strip "Here are your hooks:
Hook 1: Remote work is not a perk.
  Hook 2 - nobody misses the commute
"])
    /\ (hook_lines (PyStr.strip "Here are your hooks:
Hook 1: Remote work is not a perk.
  Hook 2 - nobody misses the commute
") <> [] ->
        Forall2 hook_of (hook_lines (PyStr.strip "Here are your hooks:
Hook 1: Remote work is not a perk.
  Hook 2 - nobody misses the commute
")) hooks).
Proof.
  exact (generate_hooks_never_empty (answering "Here are your hooks:
Hook 1: Remote work is not a perk.
  Hook 2 - nobody misses the commute
") "remote work" [] _ (fun _ => eq_refl)).
Defined.

(** The hooks of that reply, and the reply itself when it has none. *)
Example generate_hooks_runs :
  (generate_hooks (answering "Here are your hooks:
Hook 1: Remote work is not a perk.
  Hook 2 - nobody misses the commute
") "remote work" []).1
  = Ok ["Remote work is not a perk."; "  Hook 2 - nobody misses the commute"]
  /\ (generate_hooks (answering " I cannot help with that. ") "remote work" []).1
     = Ok ["I cannot help with that."].
Proof. split; vm_compute; reflexivity. Qed.

(** X6: when the service answers, [generate_cta] sends one request, with
    the temperature 0.7 and the limit of 300 tokens, and raises for no reply.
    It returns a list that is not empty: one text for each line of the reply
    that, stripped, starts with a digit or a dash, in their order, a line
    with no full stop without the dashes and spaces around it, and of a line
    with a full stop what follows the first one, stripped; when there is no
    such line, the list holds the reply itself. *)
Theorem generate_cta_never_empty self topic sent content :
  (forall req, client self sent req = Ok content) ->
  exists prompt ctas,
    generate_cta self topic sent
    = (Ok ctas, sent ++ [request_of self prompt (7 # 10) 300])
    /\ ctas <> []
    /\ (cta_lines (PyStr.strip content) = [] -> ctas = [PyStr.strip content])
    /\ (cta_lines (PyStr.strip content) <> [] ->
        Forall2 cta_of (cta_lines (PyStr.strip content)) ctas).
Proof.
  intros Hreply. unfold generate_cta, mbind, M_bind, lift.
  rewrite call_relays, Hreply. cbn [relayed].
  destruct (ctas_loop_texts (PyStr.split_sep newline (PyStr.strip content)) [])
    as (found & -> & Hfound).
  cbn [app]. eexists _, _. split; [reflexivity|].
  exact (texts_or_reply cta_of _ found (PyStr.strip content) Hfound).
Qed.

Lemma generate_cta_never_empty_witness :
  exists prompt ctas,
    generate_cta (answering "1. Share your thoughts below!
- What would you add") "remote work" []
    = (Ok ctas, [] ++ [request_of (answering "1. Share your thoughts below!
- What would you add") prompt (7 # 10) 300])
    /\ ctas <> []
    /\ (cta_lines (PyStr.strip "1. Share your thoughts below!
- What would you add") = [] -> ctas = [PyStr.strip "1. Share your thoughts below!
- What would you add"])
    /\ (cta_lines (PyStr.strip "1. Share your thoughts below!
- What would you add") <> [] ->
        Forall2 cta_of (cta_lines (PyStr.strip "1. Share your thoughts below!
- What would you add")) ctas).
Proof.
  exact (generate_cta_never_empty (answering "1. Share your thoughts below!
- What would you add") "remote work" [] _ (fun _ => eq_refl)).
Defined.

(** The texts of that reply, and the reply itself when it has no such
    line. *)
Example generate_cta_runs :
  (generate_cta (answering "1. Share your thoughts below!
- What would you add") "remote work" []).1
  = Ok ["Share your thoughts below!"; "What would you add"]
  /\ (generate_cta (answering "Happy to help.") "remote work" []).1
     = Ok ["Happy to help."].
Proof. split; vm_compute; reflexivity. Qed.

(** *** [test_api_connection] *)

(** X7: with no usable key ([None] or empty, in the argument and in the
    environment, or the placeholder of the example file) the connection test
    reports the failure of the configuration and sends no request. *)
Theorem test_api_connection_unconfigured api_key env_key groq sent :
  api_key = Some "your_groq_api_key_here"
  \/ (api_key ∈ [None; Some EmptyString]
      /\ env_key ∈ [None; Some EmptyString; Some "your_groq_api_key_here"]) ->
  test_api_connection api_key env_key groq sent
  = ((false, "Connection failed: Please set your GROQ_API_KEY in the .env file"), sent).
Proof.
  intros [->|[Ha He]]; [reflexivity|].
  by_keys Ha; by_keys He; reflexivity.
Qed.

Lemma test_api_connection_unconfigured_witness :
  test_api_connection None (Some "your_groq_api_key_here") (fun _ _ _ => Ok "Fine.") []
  = ((false, "Connection failed: Please set your GROQ_API_KEY in the .env file"), []).
Proof.
  apply test_api_connection_unconfigured. right. split.
  - constructor.
  - do 2 constructor. constructor.
Defined.

(** X8: with a key given as argument, neither empty nor the placeholder,
    the connection test sends one request, passes the key to the client and
    ignores the environment; it reports success when the service answers
    and the wrapped exception when it raises. *)
Theorem test_api_connection_one_request key env_key groq sent :
  key <> EmptyString -> key <> "your_groq_api_key_here" ->
  exists req,
    user_content req = "Say 'API connection successful'"
    /\ system_content req = "You are a test assistant."
    /\ max_tokens req = 50%Z
    /\ test_api_connection (Some key) env_key groq sent
       = (match groq key sent req with
          | Ok _ => (true, "Connection successful!")
          | Raise e =>
              (false, "Connection failed: Error calling Groq API: " +:+ exn_str e)
          end, sent ++ [req]).
Proof.
  intros Hne Hkey. unfold test_api_connection, init.
  destruct key as [|c key]; [done|].
  destruct (String.eqb_spec (String c key) "your_groq_api_key_here") as [E|_]; [done|].
  unfold _call_groq_api. cbn [client model].
  exists {| system_content := "You are a test assistant.";
            user_content := "Say 'API connection successful'";
            req_model := "llama-3.3-70b-versatile";
            temperature := 7 # 10; max_tokens := 50 |}.
  split; [reflexivity|]. split; [reflexivity|]. split; [reflexivity|].
  by destruct (groq _ _ _).
Qed.

Lemma test_api_connection_one_request_witness :
  exists req,
    test_api_connection (Some "gsk_live") None (fun _ _ _ => Raise (Exception "401")) []
    = ((false, "Connection failed: Error calling Groq API: 401"), [req]).
Proof.
  destruct (test_api_connection_one_request "gsk_live" None
              (fun _ _ _ => Raise (Exception "401")) [])
    as (req & _ & _ & _ & Hrun); [discriminate..|].
  exists req. exact Hrun.
Defined.

(** *** The prompts of one placeholder *)


End ClientFacts.

(** * Further properties of the text helpers *)

Section LineFacts.

Implicit Types (s t w piece sep : string) (c : ascii) (ls : list string).

Lemma join_cons_cons sep s t ls :
  PyStr.join sep (s :: t :: ls) = s +:+ sep +:+ PyStr.join sep (t :: ls).
Proof. reflexivity. Qed.

Lemma join_snoc sep ls s :
  ls <> [] -> PyStr.join sep (ls ++ [s]) = PyStr.join sep ls +:+ sep +:+ s.
Proof.
  induction ls as [|t ls IH]; [done|]. intros _.
  destruct ls as [|t' ls]; [reflexivity|].
  change ((t :: t' :: ls) ++ [s]) with (t :: t' :: (ls ++ [s])).
  rewrite !join_cons_cons.
  change (t' :: ls ++ [s]) with ((t' :: ls) ++ [s]).
  rewrite IH by done. by rewrite !append_assoc.
Qed.

Lemma lacks_append c s t : lacks c s -> lacks c t -> lacks c (s +:+ t).
Proof.
  unfold lacks. induction s as [|a s IH]; [done|].
  rewrite append_cons. simpl. intros [Ha Hs]%orb_false_iff Ht.
  by rewrite Ha, IH.
Qed.

Lemma spaceless_lacks c s : PyStr.isspace c = true -> spaceless s = true -> lacks c s.
Proof.
  intros Hc. unfold lacks. induction s as [|a s IH]; simpl; [done|].
  intros [Ha Hs]%andb_prop. rewrite (IH Hs), orb_false_r.
  apply Ascii.eqb_neq. intros ->. by rewrite Hc in Ha.
Qed.

Lemma join_lacks c sep ls :
  lacks c sep -> Forall (lacks c) ls -> lacks c (PyStr.join sep ls).
Proof.
  intros Hsep. induction 1 as [|s ls Hs Hls IH]; [done|].
  destruct ls as [|t ls]; [done|].
  rewrite join_cons_cons. by repeat apply lacks_append.
Qed.

(** *** [split(sep)] and [join] *)

Lemma split_sep_from_not_nil c s : forall limit piece,
  PyStr.split_sep_from c limit piece s <> [].
Proof.
  induction s as [|a s IH]; intros limit piece; simpl; [done|].
  destruct limit as [[|n]|]; [done|..]; destruct (Ascii.eqb a c); by auto.
Qed.

Lemma join_split_sep_from c s : forall piece,
  PyStr.join (String c EmptyString) (PyStr.split_sep_from c None piece s) = piece +:+ s.
Proof.
  induction s as [|a s IH]; intros piece; cbn [PyStr.split_sep_from].
  - by rewrite append_nil_r.
  - destruct (Ascii.eqb_spec a c) as [->|Hne].
    + pose proof (split_sep_from_not_nil c s (pred <$> None) EmptyString) as Hnn.
      pose proof (IH EmptyString) as IH'. cbn [fmap option_fmap option_map] in *.
      destruct (PyStr.split_sep_from c None EmptyString s) as [|t ls]; [done|].
      by rewrite join_cons_cons, IH'.
    + by rewrite IH, append_assoc.
Qed.

(** Splitting at a character and joining with it gives the string back. *)
Lemma join_split_sep c s :
  PyStr.join (String c EmptyString) (PyStr.split_sep c s) = s.
Proof. apply join_split_sep_from. Qed.

Lemma split_sep_from_lacks c t : forall piece s,
  lacks c t ->
  PyStr.split_sep_from c None piece (t +:+ s)
  = PyStr.split_sep_from c None (piece +:+ t) s.
Proof.
  unfold lacks. induction t as [|a t IH]; intros piece s.
  - by rewrite append_nil_l, append_nil_r.
  - cbn [PyStr.contains]. intros [Ha Ht]%orb_false_iff. rewrite append_cons.
    cbn [PyStr.split_sep_from]. rewrite Ha, (IH _ _ Ht), append_assoc. reflexivity.
Qed.

Lemma split_sep_join c ls :
  ls <> [] -> Forall (lacks c) ls ->
  PyStr.split_sep c (PyStr.join (String c EmptyString) ls) = ls.
Proof.
  unfold PyStr.split_sep. intros Hne Hls. induction Hls as [|s ls Hs Hls IH]; [done|].
  destruct ls as [|t ls].
  - cbn [PyStr.join String.concat].
    transitivity (PyStr.split_sep_from c None EmptyString (s +:+ EmptyString));
      [by rewrite append_nil_r|].
    rewrite split_sep_from_lacks by done. reflexivity.
  - rewrite join_cons_cons, split_sep_from_lacks, append_nil_l by done.
    rewrite append_cons. cbn [PyStr.split_sep_from]. rewrite Ascii.eqb_refl.
    cbn [fmap option_fmap option_map]. by rewrite append_nil_l, IH.
Qed.

Lemma split_sep_from_pieces c s : forall piece,
  lacks c piece -> Forall (lacks c) (PyStr.split_sep_from c None piece s).
Proof.
  induction s as [|a s IH]; intros piece Hp; cbn [PyStr.split_sep_from].
  - by constructor.
  - destruct (Ascii.eqb_spec a c) as [->|Hne].
    + constructor; [done|]. by apply IH.
    + apply IH, lacks_append; [done|]. unfold lacks. simpl.
      by rewrite orb_false_r; apply Ascii.eqb_neq.
Qed.

Lemma split_sep_pieces c s : Forall (lacks c) (PyStr.split_sep c s).
Proof. by apply split_sep_from_pieces. Qed.

End LineFacts.

Section PreviewFacts.

Import Utils.

Implicit Types (s t text content suffix : string) (c : ascii).

(** X10: for [max_lines] at least 1, [format_post_preview] returns a
    content of at most [max_lines] lines as it is, and cuts a longer one to
    its first [max_lines] lines, each kept as it is, followed by a line of
    three dots. *)
Theorem format_post_preview_lines content max_lines :
  (1 <= max_lines)%Z ->
  if (Z.of_nat (length (PyStr.split_sep Generator.newline content)) <=? max_lines)%Z
  then format_post_preview content max_lines = content
  else PyStr.split_sep Generator.newline (format_post_preview content max_lines)
       = firstn (Z.to_nat max_lines) (PyStr.split_sep Generator.newline content) ++ ["..."].
Proof.
  intros Hmax. unfold format_post_preview.
  destruct (Z.leb_spec (Z.of_nat (length (PyStr.split_sep Generator.newline content)))
              max_lines) as [_|Hlong]; [reflexivity|].
  unfold PyStr.list_slice_to. destruct (Z.ltb_spec max_lines 0) as [|_]; [lia|].
  pose proof (split_sep_pieces Generator.newline content) as Hpieces.
  set (lines := PyStr.split_sep Generator.newline content) in *.
  assert (firstn (Z.to_nat max_lines) lines <> []) as Hkept.
  { destruct lines as [|l lines]; [simpl in Hlong; lia|].
    destruct (Z.to_nat max_lines) eqn:E; [lia|done]. }
  rewrite <- join_snoc by exact Hkept.
  apply split_sep_join.
  - by destruct (firstn _ lines).
  - apply Forall_app. split; [by apply Forall_take|]. by repeat constructor.
Qed.

Lemma format_post_preview_lines_witness :
  PyStr.split_sep Generator.newline (format_post_preview "one
two
three
four" 3) = ["one"; "two"; "three"; "..."].
Proof.
  exact (format_post_preview_lines "one
two
three
four" 3 ltac:(discriminate)).
Defined.

Lemma len_remove_space s :
  PyStr.len s = (PyStr.len (PyStr.remove " " s) + occurrences " " s)%nat.
Proof.
  unfold PyStr.len. induction s as [|c s IH]; [reflexivity|].
  cbn [PyStr.remove occurrences]. destruct (Ascii.eqb c " "); simpl; lia.
Qed.

(** X11: the count without spaces and the number of space characters add up
    to the count with spaces: only U+0020 is left out, other white space
    counts. *)
Theorem count_characters_spaces text :
  count_characters text true
  = (count_characters text false + Z.of_nat (occurrences " " text))%Z.
Proof.
  unfold count_characters. destruct text as [|c text]; [reflexivity|].
  rewrite (len_remove_space (String c text)). lia.
Qed.

(** *** [count_words] *)

Lemma split_from_not_nil s : forall w, w <> EmptyString -> PyStr.split_from w s <> [].
Proof.
  induction s as [|c s IH]; intros w Hw; simpl.
  - by destruct w.
  - destruct (PyStr.isspace c); [by destruct w|]. apply IH. by destruct w.
Qed.

Lemma split_nil_lstrip s : PyStr.split s = [] <-> PyStr.lstrip s = EmptyString.
Proof.
  unfold PyStr.split. induction s as [|c s IH]; simpl; [done|].
  destruct (PyStr.isspace c); [exact IH|]. split; [|done].
  intros H. by apply split_from_not_nil in H.
Qed.

Lemma rstrip_nil_clean s : clean_start s -> PyStr.rstrip s = EmptyString -> s = EmptyString.
Proof.
  destruct s as [|c s]; [done|]. simpl. intros ->.
  by destruct (PyStr.rstrip s).
Qed.

Lemma strip_nil_lstrip s : PyStr.strip s = EmptyString <-> PyStr.lstrip s = EmptyString.
Proof.
  unfold PyStr.strip. split.
  - apply rstrip_nil_clean, lstrip_clean.
  - by intros ->.
Qed.

(** X12: [count_words] is 0 for the texts that are empty or white space
    only, and for no other: the topics [generate_post] refuses are those of
    no word. *)
Theorem count_words_zero_iff_blank text :
  count_words text = 0%Z <-> PyStr.strip text = EmptyString.
Proof.
  rewrite strip_nil_lstrip, <- split_nil_lstrip. unfold count_words.
  destruct text as [|c text]; [done|].
  destruct (PyStr.split (String c text)); [done|]. split; [|done]. simpl. lia.
Qed.

(** X13: the words of a text joined by single spaces are counted one by one:
    [count_words] of the joined tokens is their number. *)
Theorem count_words_join (ws : list string) :
  Forall token ws -> count_words (PyStr.join " " ws) = Z.of_nat (length ws).
Proof.
  intros Hws. unfold count_words.
  destruct (PyStr.join " " ws) eqn:E.
  - apply (f_equal PyStr.split) in E. rewrite split_join in E by done. by subst.
  - by rewrite <- E, split_join.
Qed.

Lemma count_words_join_witness :
  count_words (PyStr.join " " ["ship"; "it"; "today"]) = 3%Z.
Proof.
  apply (count_words_join ["ship"; "it"; "today"]).
  repeat constructor; discriminate.
Defined.

(** *** [truncate_text] *)

Lemma startswith_refl s : PyStr.startswith s s = true.
Proof. induction s as [|c s IH]; simpl; [done|]. by rewrite Ascii.eqb_refl. Qed.

Lemma startswith_take n s : PyStr.startswith s (PyStr.take n s) = true.
Proof.
  revert s. induction n as [|n IH]; intros [|c s]; simpl; try done.
  by rewrite Ascii.eqb_refl.
Qed.

Lemma startswith_rstrip s : PyStr.startswith s (PyStr.rstrip s) = true.
Proof.
  induction s as [|c s IH]; simpl; [done|].
  destruct (PyStr.rstrip s) as [|c' r].
  - destruct (PyStr.isspace c); simpl; [done|]. by rewrite Ascii.eqb_refl.
  - cbn [PyStr.startswith]. by rewrite Ascii.eqb_refl.
Qed.

Lemma startswith_trans s t w :
  PyStr.startswith s t = true -> PyStr.startswith t w = true ->
  PyStr.startswith s w = true.
Proof.
  revert s t. induction w as [|c w IH]; intros s t; [done|].
  destruct t as [|b t]; [done|]. destruct s as [|a s]; [done|]. simpl.
  destruct (Ascii.eqb_spec b a) as [->|]; [|done].
  destruct (Ascii.eqb_spec c a) as [->|]; [|done].
  apply IH.
Qed.

(** X14: when the text is longer than [max_length] and the suffix is not,
    the result of [truncate_text] is a beginning of the text, with no white
    space at its end, followed by the suffix: nothing of the text is
    changed, it is only cut. *)
Theorem truncate_text_cuts_only text max_length suffix :
  (max_length < Z.of_nat (PyStr.len text))%Z ->
  (Z.of_nat (PyStr.len suffix) <= max_length)%Z ->
  exists kept,
    truncate_text text max_length suffix = kept +:+ suffix
    /\ PyStr.startswith text kept = true
    /\ PyStr.rstrip kept = kept.
Proof.
  intros Hlong Hsuffix. unfold truncate_text.
  destruct (Z.leb_spec (Z.of_nat (PyStr.len text)) max_length) as [|_]; [lia|].
  unfold PyStr.slice_to.
  destruct (Z.ltb_spec (max_length - Z.of_nat (PyStr.len suffix)) 0) as [|_]; [lia|].
  eexists. split; [reflexivity|]. split; [|apply rstrip_idem].
  eapply startswith_trans; [apply startswith_take|apply startswith_rstrip].
Qed.

Lemma truncate_text_cuts_only_witness :
  exists kept,
    truncate_text "hello   world" 9 "..." = kept +:+ "..."
    /\ PyStr.startswith "hello   world" kept = true
    /\ PyStr.rstrip kept = kept.
Proof.
  apply (truncate_text_cuts_only "hello   world" 9 "..."); vm_compute; [reflexivity|discriminate].
Defined.

End PreviewFacts.

Section WrapFacts.

Import Utils.

Implicit Types (s t w rest : string) (g ws : list string) (st : wrap).

Lemma split_from_word_space w c rest :
  token w -> PyStr.isspace c = true ->
  PyStr.split_from EmptyString (w +:+ String c rest)
  = w :: PyStr.split_from EmptyString rest.
Proof.
  intros [Hne Hw] Hc. rewrite split_from_spaceless, append_nil_l by done.
  cbn [PyStr.split_from]. rewrite Hc. by destruct w.
Qed.

Lemma split_from_word_end w :
  token w -> PyStr.split_from EmptyString w = [w].
Proof.
  intros [Hne Hw]. rewrite <- (append_nil_r w) at 1.
  rewrite split_from_spaceless, append_nil_l by done. by destruct w.
Qed.

(** The words of a line, then what follows the line. *)
Lemma split_from_line g : forall rest,
  Forall token g -> g <> [] ->
  rest = EmptyString \/ (exists c r, rest = String c r /\ PyStr.isspace c = true) ->
  PyStr.split_from EmptyString (PyStr.join " " g +:+ rest)
  = g ++ PyStr.split_from EmptyString rest.
Proof.
  induction g as [|w g IH]; intros rest Hg Hne Hrest; [done|].
  inversion Hg as [|? ? Hw Hg']; subst.
  destruct g as [|w' g].
  - cbn [PyStr.join String.concat app].
    destruct Hrest as [->|(c & r & -> & Hc)].
    + rewrite append_nil_r. by apply split_from_word_end.
    + rewrite split_from_word_space by done. cbn [PyStr.split_from]. by rewrite Hc.
  - rewrite join_cons_cons, !append_assoc.
    change (" " +:+ PyStr.join " " (w' :: g) +:+ rest)
      with (String " " (PyStr.join " " (w' :: g) +:+ rest)).
    rewrite split_from_word_space by done. by rewrite IH.
Qed.

Lemma split_lines_of_words groups :
  Forall line_words groups ->
  PyStr.split (PyStr.join newline (map (PyStr.join " ") groups)) = concat groups.
Proof.
  unfold PyStr.split. induction 1 as [|g groups [Hne Hg] Hgroups IH]; [done|].
  cbn [map concat]. destruct groups as [|g' groups].
  - change (PyStr.split_from EmptyString (PyStr.join " " g) = g ++ []).
    rewrite <- (append_nil_r (PyStr.join " " g)).
    by rewrite (split_from_line g EmptyString Hg Hne) by by left.
  - cbn [map]. rewrite join_cons_cons.
    rewrite (split_from_line g _ Hg Hne) by (right; by eexists _, _).
    f_equal. exact IH.
Qed.

Lemma len_join_snoc g w :
  g <> [] ->
  PyStr.len (PyStr.join " " (g ++ [w]))
  = (PyStr.len (PyStr.join " " g) + 1 + PyStr.len w)%nat.
Proof.
  intros Hg. rewrite join_snoc, !len_append by done. simpl. lia.
Qed.

Lemma line_words_fit max_line_length g (n : Z) :
  Forall token g -> g <> [] ->
  (Z.of_nat (PyStr.len (PyStr.join " " g)) <= n)%Z ->
  ((2 <= length g)%nat -> (n <= max_line_length)%Z) ->
  line_fits max_line_length (PyStr.join " " g).
Proof.
  intros Hg Hne Hlen Hfit. destruct g as [|w [|w' g]]; [done|..].
  - right. inversion Hg as [|? ? [_ Hw] _]; subst. exact Hw.
  - left. simpl in Hfit. lia.
Qed.

Lemma wrap_word_inv max_line_length words st w :
  token w -> wrap_inv max_line_length words st ->
  wrap_inv max_line_length (words ++ [w]) (wrap_word max_line_length st w).
Proof.
  intros Hw (groups & Hlines & Hgroups & Hwords & Hcur & Hfits & Hlen & Hwidth).
  unfold wrap_word.
  destruct (current_line st) as [|w0 cur] eqn:Ecur.
  - (* the first word of the text *)
    rewrite andb_false_r. exists groups. cbn [lines current_line current_length].
    cbn [app PyStr.join String.concat] in *.
    split; [done|]. split; [done|]. split; [by rewrite <- Hwords, app_nil_r|].
    split; [by apply Forall_singleton|]. split; [done|].
    split; [simpl in Hlen; lia|]. simpl. lia.
  - rewrite andb_true_r.
    destruct (Z.ltb_spec max_line_length
                (current_length st + (Z.of_nat (PyStr.len w) + 1))) as [Hover|Hroom].
    + (* the current line is full *)
      exists (groups ++ [w0 :: cur]). cbn [lines current_line current_length].
      split; [by rewrite Hlines, map_app|].
      split; [apply Forall_app; split; [done|]; by apply Forall_singleton|].
      split; [rewrite concat_app; cbn [concat];
              by rewrite app_nil_r, <- Hwords, <- !app_assoc|].
      split; [by apply Forall_singleton|].
      split.
      { apply Forall_app. split; [done|]. constructor; [|constructor].
        by apply (line_words_fit _ _ (current_length st)). }
      split; [cbn [PyStr.join String.concat]; lia|]. simpl. lia.
    + (* the word goes on the current line *)
      exists groups. cbn [lines current_line current_length].
      split; [done|]. split; [done|]. split; [by rewrite app_assoc, Hwords|].
      split; [apply Forall_app; split; [done|]; by apply Forall_singleton|].
      split; [done|].
      split; [rewrite len_join_snoc by done; lia|]. intros _. lia.
Qed.

Lemma wrap_fold_inv max_line_length ws : forall words st,
  Forall token ws -> wrap_inv max_line_length words st ->
  wrap_inv max_line_length (words ++ ws) (fold_left (wrap_word max_line_length) ws st).
Proof.
  induction ws as [|w ws IH]; intros words st Hws Hinv; cbn [fold_left].
  - by rewrite app_nil_r.
  - inversion Hws as [|? ? Hw Hws']; subst.
    replace (words ++ w :: ws) with ((words ++ [w]) ++ ws) by by rewrite <- app_assoc.
    apply IH; [done|]. by apply wrap_word_inv.
Qed.

(** The lines [add_line_breaks] joins, as lists of words. *)
Lemma add_line_breaks_groups text max_line_length :
  exists groups,
    add_line_breaks text max_line_length
    = PyStr.join newline (map (PyStr.join " ") groups)
    /\ Forall line_words groups
    /\ concat groups = PyStr.split text
    /\ Forall (line_fits max_line_length) (map (PyStr.join " ") groups).
Proof.
  unfold add_line_breaks.
  destruct (wrap_fold_inv max_line_length (PyStr.split text) []
              {| lines := []; current_line := []; current_length := 0 |}
              (split_tokens text))
    as (groups & Hlines & Hgroups & Hwords & Hcur & Hfits & Hlen & Hwidth).
  { exists []. repeat split; try done; try constructor. simpl. lia. }
  cbn [app] in Hwords.
  set (st := fold_left _ _ _) in *.
  destruct (current_line st) as [|w0 cur] eqn:Ecur.
  - exists groups. rewrite app_nil_r in Hwords. by rewrite <- Hlines.
  - exists (groups ++ [w0 :: cur]). rewrite map_app, <- Hlines.
    split; [reflexivity|].
    split; [apply Forall_app; split; [done|]; by apply Forall_singleton|].
    split; [rewrite concat_app; cbn [concat]; by rewrite app_nil_r|].
    apply Forall_app. split; [done|]. apply Forall_singleton.
    by apply (line_words_fit _ _ (current_length st)).
Qed.

(** X15: [add_line_breaks] keeps the words of the text, all of them and in
    their order, whatever the width: it only changes the white space between
    them. *)
Theorem add_line_breaks_keeps_words (text : string) (max_line_length : Z) :
  PyStr.split (add_line_breaks text max_line_length) = PyStr.split text.
Proof.
  destruct (add_line_breaks_groups text max_line_length) as (groups & -> & Hg & <- & _).
  by apply split_lines_of_words.
Qed.

(** X16: every line [add_line_breaks] makes is at most [max_line_length]
    long, unless it is one word that is longer by itself. *)
Theorem add_line_breaks_width (text : string) (max_line_length : Z) :
  Forall (line_fits max_line_length)
    (PyStr.split_sep Generator.newline (add_line_breaks text max_line_length)).
Proof.
  destruct (add_line_breaks_groups text max_line_length) as (groups & -> & Hg & _ & Hfits).
  destruct groups as [|g groups]; [by repeat constructor|].
  unfold newline. rewrite split_sep_join; [exact Hfits|done|].
  apply Forall_map. eapply Forall_impl; [exact Hg|].
  intros g' [_ Hg']. apply join_lacks; [done|].
  eapply Forall_impl; [exact Hg'|]. intros w [_ Hw]. by apply spaceless_lacks.
Qed.

End WrapFacts.

Section HashtagFacts.

Import Utils.

Implicit Types (s t w text : string) (c : ascii) (tag : option string).

Lemma wordy_append s t : wordy (s +:+ t) = wordy s && wordy t.
Proof.
  induction s as [|c s IH]; [reflexivity|].
  rewrite append_cons. simpl. by rewrite IH, andb_assoc.
Qed.

Lemma found_words tag :
  reading tag ->
  Forall word (match tag with Some (String c t) => [String c t] | _ => [] end).
Proof. destruct tag as [[|c t]|]; intros Ht; by repeat constructor. Qed.

Lemma findall_from_words s : forall tag,
  reading tag -> Forall word (PyStr.findall_hashtags_from tag s).
Proof.
  induction s as [|c s IH]; intros tag Htag; cbn [PyStr.findall_hashtags_from].
  - by apply found_words.
  - destruct tag as [t|].
    + destruct (PyStr.isword c) eqn:Ec.
      * apply IH. simpl in *. by rewrite wordy_append, Htag; simpl; rewrite Ec.
      * destruct (Ascii.eqb c "#"); (apply Forall_app; split;
          [by apply (found_words (Some t))|by apply IH]).
    + destruct (Ascii.eqb c "#"); by apply IH.
Qed.

Lemma findall_from_count s : forall tag,
  (length (PyStr.findall_hashtags_from tag s)
   <= (match tag with Some _ => 1 | None => 0 end) + occurrences "#" s)%nat.
Proof.
  induction s as [|c s IH]; intros tag; cbn [PyStr.findall_hashtags_from occurrences].
  - destruct tag as [[|? ?]|]; simpl; lia.
  - destruct tag as [t|].
    + destruct (PyStr.isword c) eqn:Ec.
      * specialize (IH (Some (t +:+ String c EmptyString))).
        destruct (Ascii.eqb c "#"); simpl in *; lia.
      * destruct (Ascii.eqb c "#"); rewrite length_app;
          [specialize (IH (Some EmptyString))|specialize (IH None)];
          destruct t; simpl in *; lia.
    + destruct (Ascii.eqb c "#"); [specialize (IH (Some EmptyString))|specialize (IH None)];
        simpl in *; lia.
Qed.

(** X17: every hashtag [extract_hashtags] returns is a word that is not
    empty, made of word characters only, and [count_hashtags] is at most
    the number of [#] in the text. *)
Theorem extract_hashtags_words text :
  Forall word (extract_hashtags text)
  /\ (count_hashtags text <= Z.of_nat (occurrences "#" text))%Z.
Proof.
  split.
  - by apply findall_from_words.
  - unfold count_hashtags, extract_hashtags, PyStr.findall_hashtags.
    pose proof (findall_from_count text None). simpl in *. lia.
Qed.

(** *** After [format_hashtags] *)

Lemma findall_from_word w : forall t s,
  wordy w = true ->
  PyStr.findall_hashtags_from (Some t) (w +:+ s)
  = PyStr.findall_hashtags_from (Some (t +:+ w)) s.
Proof.
  induction w as [|c w IH]; intros t s Hw.
  - by rewrite append_nil_l, append_nil_r.
  - simpl in Hw. apply andb_prop in Hw as [Hc Hw].
    rewrite append_cons. cbn [PyStr.findall_hashtags_from]. rewrite Hc.
    by rewrite (IH _ _ Hw), append_assoc.
Qed.

Lemma findall_hashed ws :
  Forall word ws ->
  PyStr.findall_hashtags (PyStr.join " " (map (String.append "#") ws)) = ws.
Proof.
  unfold PyStr.findall_hashtags. induction 1 as [|w ws [Hne Hw] Hws IH]; [done|].
  destruct ws as [|w' ws].
  - change (PyStr.join " " (map (String.append "#") [w])) with (String "#" w).
    cbn [PyStr.findall_hashtags_from Ascii.eqb Bool.eqb].
    rewrite <- (append_nil_r w) at 1. rewrite findall_from_word by done.
    cbn [PyStr.findall_hashtags_from]. rewrite append_nil_l. by destruct w.
  - change (map (String.append "#") (w :: w' :: ws))
      with (("#" +:+ w) :: map (String.append "#") (w' :: ws)).
    cbn [map]. rewrite join_cons_cons. cbn [map] in IH.
    change (("#" +:+ w) +:+ " " +:+ PyStr.join " " (("#" +:+ w') :: map (String.append "#") ws))
      with (String "#" (w +:+ String " "
              (PyStr.join " " (("#" +:+ w') :: map (String.append "#") ws)))).
    cbn [PyStr.findall_hashtags_from Ascii.eqb Bool.eqb].
    rewrite findall_from_word by done. rewrite append_nil_l.
    cbn [PyStr.findall_hashtags_from].
    change (PyStr.isword " ") with false. cbn [Ascii.eqb Bool.eqb].
    rewrite IH. by destruct w.
Qed.

Lemma word_token w : word w -> token w.
Proof.
  intros [Hne Hw]. split; [done|].
  clear Hne. induction w as [|c w IH]; [done|]. simpl in *.
  apply andb_prop in Hw as [Hc Hw]. rewrite (IH Hw), andb_true_r.
  destruct (PyStr.isspace c) eqn:Es; [|done].
  exfalso. revert Hc Es. unfold PyStr.isword, PyStr.isspace, PyStr.code.
  generalize (nat_of_ascii c). intros n.
  rewrite !orb_true_iff, !andb_true_iff, !Nat.leb_le, !Nat.eqb_eq. lia.
Qed.

Lemma word_with_hash w : word w -> with_hash w = "#" +:+ w.
Proof.
  intros [Hne Hw]. unfold with_hash. destruct w as [|c w]; [done|].
  simpl in Hw. apply andb_prop in Hw as [Hc _]. cbn [PyStr.startswith].
  destruct (Ascii.eqb_spec "#" c) as [<-|_]; [|reflexivity].
  vm_compute in Hc. discriminate.
Qed.

(** X18: when the tokens of a hashtag string, commas read as white space,
    are plain words, [extract_hashtags] finds in the formatted string those
    words, in their order: formatting then extracting gives the tags
    back. *)
Theorem extract_formatted_hashtags (hashtags : string) :
  Forall word (PyStr.split (PyStr.replace "," " " hashtags)) ->
  extract_hashtags (format_hashtags hashtags)
  = PyStr.split (PyStr.replace "," " " hashtags).
Proof.
  intros Hwords. unfold extract_hashtags. rewrite format_hashtags_eq.
  rewrite (map_ext_Forall with_hash (String.append "#")).
  - by apply findall_hashed.
  - eapply Forall_impl; [exact Hwords|]. apply word_with_hash.
Qed.

Lemma extract_formatted_hashtags_witness :
  extract_hashtags (format_hashtags "ai, ml,python") = ["ai"; "ml"; "python"].
Proof.
  apply (extract_formatted_hashtags "ai, ml,python").
  repeat constructor; discriminate.
Defined.

End HashtagFacts.

Section CleanFacts.

Import Utils.

Implicit Types (s t w text : string) (c : ascii).

Lemma rstrip_append_nil s t :
  PyStr.rstrip t = EmptyString -> PyStr.rstrip (s +:+ t) = PyStr.rstrip s.
Proof.
  intros Ht. induction s as [|c s IH]; [by rewrite append_nil_l|].
  rewrite append_cons. cbn [PyStr.rstrip]. by rewrite IH.
Qed.

Lemma rstrip_append_cons s t c r :
  PyStr.rstrip t = String c r -> PyStr.rstrip (s +:+ t) = s +:+ String c r.
Proof.
  intros Ht. induction s as [|a s IH]; [by rewrite !append_nil_l|].
  rewrite !append_cons. cbn [PyStr.rstrip]. rewrite IH.
  by destruct s.
Qed.

Lemma join_tokens_nil ws : Forall token ws -> PyStr.join " " ws = EmptyString -> ws = [].
Proof.
  intros Hws E. apply (f_equal PyStr.split) in E. by rewrite split_join in E.
Qed.

(** After a word, and in a run of white space: what is left of the
    collapsed text once the white space at its end is dropped. *)
Lemma rstrip_sub_spaces s :
  (forall w, w <> EmptyString -> spaceless w = true ->
     PyStr.rstrip (w +:+ PyStr.sub_spaces_from false s)
     = PyStr.join " " (PyStr.split_from w s))
  /\ PyStr.rstrip (PyStr.sub_spaces_from true s)
     = PyStr.join " " (PyStr.split_from EmptyString s).
Proof.
  induction s as [|c s [IHword IHrun]]; cbn [PyStr.sub_spaces_from PyStr.split_from].
  - split; [|done]. intros w Hne Hw. rewrite append_nil_r, rstrip_spaceless by done.
    by destruct w.
  - destruct (PyStr.isspace c) eqn:Ec.
    + split; [|exact IHrun]. intros w Hne Hw.
      assert (PyStr.split_from w (String c s) = w :: PyStr.split_from EmptyString s) as Hsplit
        by (cbn [PyStr.split_from]; rewrite Ec; by destruct w).
      destruct w as [|a w]; [done|].
      pose proof (split_from_tokens s EmptyString eq_refl) as Htokens.
      destruct (PyStr.split_from EmptyString s) as [|w' ws] eqn:Ews.
      * rewrite rstrip_append_nil; [by apply rstrip_spaceless|].
        cbn [PyStr.rstrip]. by rewrite IHrun.
      * rewrite join_cons_cons.
        destruct (PyStr.join " " (w' :: ws)) as [|b r] eqn:Ejoin.
        { by apply join_tokens_nil in Ejoin. }
        apply rstrip_append_cons. cbn [PyStr.rstrip]. by rewrite IHrun.
    + assert (forall w, spaceless w = true ->
                PyStr.rstrip (w +:+ String c (PyStr.sub_spaces_from false s))
                = PyStr.join " " (PyStr.split_from (w +:+ String c EmptyString) s)) as Hstep.
      { intros w Hw.
        change (String c (PyStr.sub_spaces_from false s))
          with (String c EmptyString +:+ PyStr.sub_spaces_from false s).
        rewrite <- append_assoc. apply IHword; [by destruct w|].
        rewrite spaceless_append, Hw. simpl. by rewrite Ec. }
      split; [intros w _ Hw; by apply Hstep|]. by apply (Hstep EmptyString).
Qed.

Lemma sub_spaces_run_clean s : clean_start (PyStr.sub_spaces_from true s).
Proof.
  induction s as [|c s IH]; cbn [PyStr.sub_spaces_from]; [done|].
  destruct (PyStr.isspace c) eqn:Ec; [exact IH|exact Ec].
Qed.

(** X19: [clean_text] returns the words of the text joined by single
    spaces; so it keeps the words, and cleaning a second time changes
    nothing. *)
Theorem clean_text_joins_words text :
  clean_text text = PyStr.join " " (PyStr.split text)
  /\ PyStr.split (clean_text text) = PyStr.split text
  /\ clean_text (clean_text text) = clean_text text.
Proof.
  assert (forall s, clean_text s = PyStr.join " " (PyStr.split s)) as Hclean.
  { intros s. unfold clean_text, PyStr.sub_spaces, PyStr.strip, PyStr.split.
    destruct s as [|c s]; [reflexivity|].
    cbn [PyStr.sub_spaces_from PyStr.split_from]. destruct (PyStr.isspace c) eqn:Ec.
    - cbn [PyStr.lstrip]. change (PyStr.isspace " ") with true. cbn iota.
      rewrite lstrip_id by apply sub_spaces_run_clean.
      apply (rstrip_sub_spaces s).
    - cbn [PyStr.lstrip]. rewrite Ec.
      change (String c (PyStr.sub_spaces_from false s))
        with (String c EmptyString +:+ PyStr.sub_spaces_from false s).
      apply (rstrip_sub_spaces s); [done|]. simpl. by rewrite Ec. }
  assert (PyStr.split (clean_text text) = PyStr.split text) as Hwords
    by (rewrite Hclean; apply split_join, split_tokens).
  split; [apply Hclean|]. split; [exact Hwords|].
  by rewrite (Hclean (clean_text text)), Hwords, <- Hclean.
Qed.

End CleanFacts.

(** * Relative time, for whole seconds *)

Section BucketFacts.

Import PyFloat.

Local Open Scope Q_scope.

Implicit Types (x y : Q) (k d q : Z).

Lemma Qdiv_cancel x y : 0 < y -> x / y * y == x.
Proof.
  intros Hy. unfold Qdiv. rewrite <- Qmult_assoc, (Qmult_comm (/ y)), Qmult_inv_r.
  - apply Qmult_1_r.
  - intros E. rewrite E in Hy. by apply Qlt_irrefl in Hy.
Qed.

Lemma rne_comp x y : x == y -> rne x = rne y.
Proof.
  intros E. assert (x <= y) as H1 by lra. assert (y <= x) as H2 by lra.
  apply rne_mono in H1, H2. lia.
Qed.

Lemma round_nonpos x : x <= 0 -> round x <= 0.
Proof.
  destruct x as [[|n|n] den]; unfold round; cbn [Qnum Qden]; intros Hx.
  - apply Qle_refl.
  - exfalso. unfold Qle in Hx. simpl in Hx. lia.
  - pose proof (round_pos_nonneg n den). lra.
Qed.

(** Rounding does not depend on how the rational is written. *)
Lemma round_proper x y : 0 <= x -> x == y -> round x == round y.
Proof.
  intros Hx E. apply Qle_antisym; apply round_mono; lra.
Qed.

Lemma ilog2_int_range (n : positive) :
  (Zpos n < 2 ^ 53)%Z -> (0 <= ilog2 n 1 < 53)%Z.
Proof.
  intros Hn. destruct (ilog2_spec n 1) as [Hlow Hhigh].
  assert (inject_Z (Zpos n) == Zpos n # 1) as En by reflexivity.
  split.
  - destruct (Z.le_gt_cases 0 (ilog2 n 1)) as [|Hneg]; [done|]. exfalso.
    apply (Qlt_irrefl (Zpos n # 1)). eapply Qlt_le_trans; [exact Hhigh|].
    eapply Qle_trans; [apply (pow2_le _ 0); lia|].
    rewrite <- En, (pow2_inject 0) by lia. rewrite <- Zle_Qle. lia.
  - apply (Qpower_lt_compat_l_inv 2); [|reflexivity].
    eapply Qle_lt_trans; [exact Hlow|].
    rewrite <- En. change (2 ^ 53) with (pow2 53). rewrite (pow2_inject 53) by lia.
    by rewrite <- Zlt_Qlt.
Qed.

(** The integers below [2^53] are floats. *)
Lemma round_int k : (0 <= k < 2 ^ 53)%Z -> round (inject_Z k) == inject_Z k.
Proof.
  intros [Hk0 Hk]. destruct k as [|n|n]; [reflexivity| |lia].
  unfold round, inject_Z. cbn [Qnum Qden]. rewrite round_pos_eq.
  pose proof (ilog2_int_range n Hk) as HL.
  assert (exponent n 1 = (ilog2 n 1 - 52)%Z) as He by (unfold exponent; lia).
  set (e := exponent n 1) in *.
  assert ((Zpos n # 1) / pow2 e == inject_Z (Zpos n * 2 ^ (- e))) as Hscaled.
  { unfold Qdiv, pow2. rewrite <- Qpower_opp. fold (pow2 (- e)).
    rewrite (pow2_inject (- e)) by lia. by rewrite inject_Z_mult. }
  unfold significand. fold e. rewrite (rne_comp _ _ Hscaled), rne_inject.
  rewrite inject_Z_mult, <- (pow2_inject (- e)) by lia.
  rewrite <- Qmult_assoc, <- pow2_add. replace (- e + e)%Z with 0%Z by lia.
  change (pow2 0) with 1. by rewrite Qmult_1_r.
Qed.

Lemma rne_error x : inject_Z (rne x) - x <= 1 # 2.
Proof.
  unfold rne. pose proof (Qfloor_le x) as Hlow.
  destruct (Qcompare_spec (x - inject_Z (Qfloor x)) (1 # 2)) as [E|Hlt|Hgt].
  - destruct (Z.even (Qfloor x)); [lra|].
    rewrite inject_Z_plus. change (inject_Z 1) with 1. lra.
  - lra.
  - rewrite inject_Z_plus. change (inject_Z 1) with 1. lra.
Qed.

(** The error of rounding a float of at least 1 is at most half a unit of
    its last place. *)
Lemma round_upper x : 1 <= x -> round x <= x + x * (1 # 9007199254740992).
Proof.
  intros Hx. destruct x as [[|n|n] den]; try (exfalso; revert Hx; unfold Qle; simpl; lia).
  unfold round. cbn [Qnum Qden]. rewrite round_pos_eq.
  set (x := Zpos n # den) in *. destruct (ilog2_spec n den) as [Hlow Hhigh]. fold x in Hlow, Hhigh.
  assert (0 <= ilog2 n den)%Z as HL.
  { destruct (Z.le_gt_cases 0 (ilog2 n den)) as [|Hneg]; [done|]. exfalso.
    apply (Qlt_irrefl x). eapply Qlt_le_trans; [exact Hhigh|].
    eapply Qle_trans; [apply (pow2_le _ 0); lia|]. exact Hx. }
  assert (exponent n den = (ilog2 n den - 52)%Z) as He by (unfold exponent; lia).
  set (e := exponent n den) in *.
  assert (pow2 e <= x * (1 # 4503599627370496)) as Hulp.
  { rewrite He. replace (ilog2 n den - 52)%Z with (ilog2 n den + - 52)%Z by lia.
    rewrite pow2_add. change (pow2 (- 52)) with (1 # 4503599627370496).
    apply Qmult_le_compat_r; [exact Hlow|discriminate]. }
  pose proof (pow2_pos e) as Hpos.
  pose proof (rne_error (x / pow2 e)) as Herr. fold x e in Herr |- *.
  unfold significand. fold x e.
  assert (x / pow2 e * pow2 e == x) as Hscale by (by apply Qdiv_cancel).
  assert ((inject_Z (rne (x / pow2 e)) - x / pow2 e) * pow2 e <= (1 # 2) * pow2 e) as Hmul
    by (apply Qmult_le_compat_r; [exact Herr|lra]).
  assert ((inject_Z (rne (x / pow2 e)) - x / pow2 e) * pow2 e
          == inject_Z (rne (x / pow2 e)) * pow2 e - x / pow2 e * pow2 e) as Hring
    by ring.
  rewrite Hring, Hscale in Hmul. lra.
Qed.

Lemma Qfloor_unique x q : inject_Z q <= x -> x < inject_Z (q + 1) -> Qfloor x = q.
Proof.
  intros Hlow Hhigh. pose proof (Qfloor_le x) as H1. pose proof (Qlt_floor x) as H2.
  assert (Qfloor x < q + 1)%Z by (rewrite Zlt_Qlt; lra).
  assert (q < Qfloor x + 1)%Z by (rewrite Zlt_Qlt; lra).
  lia.
Qed.

(** Dividing an integer below [2^53] by a smaller one and dropping the
    fraction gives the integer quotient: the rounding does not reach the next
    integer. *)
Lemma to_int_quotient k d :
  (0 < d)%Z -> (d <= k < 2 ^ 53)%Z ->
  to_int (round (inject_Z k / inject_Z d)) = (k / d)%Z.
Proof.
  intros Hd [Hdk Hk]. set (x := inject_Z k / inject_Z d).
  assert (0 < inject_Z d) as HD by (rewrite <- (Zlt_Qlt 0); exact Hd).
  assert (x * inject_Z d == inject_Z k) as Hx by (by apply Qdiv_cancel).
  assert (inject_Z k < 9007199254740992) as HK
    by (change 9007199254740992 with (inject_Z (2 ^ 53)); by rewrite <- Zlt_Qlt).
  assert (1 <= x) as H1.
  { apply Qle_shift_div_l; [exact HD|]. rewrite Qmult_1_l, <- Zle_Qle. exact Hdk. }
  pose proof (Z.mul_div_le k d Hd) as Hq1.
  pose proof (Z.mul_succ_div_gt k d Hd) as Hq2.
  assert (0 <= k / d)%Z as Hq0 by (apply Z.div_pos; lia).
  assert (k / d <= k)%Z as Hqk by (apply Z.div_le_upper_bound; nia).
  assert (inject_Z (k / d) <= x) as Hlow.
  { apply Qle_shift_div_l; [exact HD|]. rewrite <- inject_Z_mult, <- Zle_Qle. lia. }
  rewrite to_int_floor by (apply round_nonneg; lra).
  apply Qfloor_unique.
  - rewrite <- (round_int (k / d)) by lia. apply round_mono; [|exact Hlow].
    rewrite <- (Zle_Qle 0). exact Hq0.
  - eapply Qle_lt_trans; [apply round_upper, H1|].
    apply (Qmult_lt_r _ _ (inject_Z d) HD).
    assert ((x + x * (1 # 9007199254740992)) * inject_Z d
            == inject_Z k + inject_Z k * (1 # 9007199254740992)) as ->
      by (rewrite <- Hx; ring).
    rewrite <- inject_Z_mult.
    assert (inject_Z k + 1 <= inject_Z ((k / d + 1) * d)) as Hnext.
    { change 1 with (inject_Z 1). rewrite <- inject_Z_plus, <- Zle_Qle. lia. }
    lra.
Qed.

(** *** The dates [datetime] holds *)

Lemma strptime_valid timestamp dt :
  PyDatetime.strptime timestamp = Some dt -> PyDatetime.valid dt = true.
Proof.
  unfold PyDatetime.strptime. destruct (PyDatetime.group _ _ _) as [[found rest]|]; [|done].
  cbn. destruct rest; [|done]. destruct (PyDatetime.valid found) eqn:E; [|done].
  by intros [= <-].
Qed.

Lemma days_before_month_range (yr m : Z) :
  (1 <= m <= 12)%Z -> (0 <= PyDatetime.days_before_month yr m <= 335)%Z.
Proof.
  intros Hm.
  assert (exists i, (i < 12)%nat /\ m = Z.of_nat (S i)) as (i & Hi & ->)
    by (exists (Z.to_nat (m - 1)); lia).
  unfold PyDatetime.days_before_month.
  replace (Z.to_nat (Z.of_nat (S i) - 1)) with i by lia.
  do 12 (destruct i as [|i];
    [cbv beta iota zeta delta
       [PyDatetime.days_in_months PyDatetime.days_in_month
        Z.of_nat Pos.of_succ_nat Pos.succ Z.eqb Pos.eqb orb];
     destruct (PyDatetime.is_leap yr); lia|]).
  lia.
Qed.

Lemma days_in_month_range (yr m : Z) : (28 <= PyDatetime.days_in_month yr m <= 31)%Z.
Proof.
  unfold PyDatetime.days_in_month.
  destruct (m =? 2)%Z; [destruct (PyDatetime.is_leap yr); lia|].
  destruct (_ || _); lia.
Qed.

(** A [datetime] is between 0 and 4 * 10^17 microseconds after the start of
    the day before 1 January of year 1. *)
Lemma to_microseconds_range dt :
  PyDatetime.valid dt = true ->
  (0 <= PyDatetime.to_microseconds dt < 400000000000000000)%Z.
Proof.
  unfold PyDatetime.valid. rewrite !andb_true_iff, !Z.leb_le.
  intros [[[[[[[[[[[[[Hy1 Hy2] Hm1] Hm2] Hd1] Hd2] HH1] HH2] HM1] HM2] HS1] HS2] Hu1] Hu2].
  pose proof (days_before_month_range (PyDatetime.year dt) (PyDatetime.month dt)
                (conj Hm1 Hm2)) as Hbefore.
  pose proof (days_in_month_range (PyDatetime.year dt) (PyDatetime.month dt)) as Hin.
  unfold PyDatetime.to_microseconds, PyDatetime.ymd2ord, PyDatetime.days_before_year.
  cbv zeta. Z.div_mod_to_equations. lia.
Qed.

(** *** The seconds and the buckets *)

Lemma total_seconds_whole k :
  (0 <= k < 2 ^ 53)%Z -> PyDatetime.total_seconds (k * 1000000) == inject_Z k.
Proof.
  intros Hk. unfold PyDatetime.total_seconds, int_truediv.
  assert (inject_Z (k * 1000000) / inject_Z 1000000 == inject_Z k) as E
    by (rewrite inject_Z_mult; by apply Qdiv_mult_l).
  rewrite (round_proper _ (inject_Z k)); [by apply round_int| |exact E].
  apply truediv_nonneg; lia.
Qed.

Lemma total_seconds_past k : (k < 0)%Z -> PyDatetime.total_seconds (k * 1000000) <= 0.
Proof.
  intros Hk. unfold PyDatetime.total_seconds, int_truediv. apply round_nonpos.
  apply Qle_shift_div_r; [reflexivity|]. rewrite Qmult_0_l, <- (Zle_Qle _ 0). lia.
Qed.

Lemma lt_int_whole x k (n : Z) : x == inject_Z k -> Utils.lt_int x n = (k <? n)%Z.
Proof.
  intros E. unfold Utils.lt_int.
  destruct (Qle_bool (inject_Z n) x) eqn:Hle; cbn.
  - apply Qle_bool_iff in Hle. rewrite E, <- Zle_Qle in Hle. symmetry. apply Z.ltb_ge, Hle.
  - symmetry. apply Z.ltb_lt. destruct (Z.lt_ge_cases k n) as [|Hge]; [done|]. exfalso.
    apply not_true_iff_false in Hle. apply Hle, Qle_bool_iff.
    rewrite E, <- Zle_Qle. exact Hge.
Qed.

Lemma lt_int_past x (n : Z) : x <= 0 -> (0 < n)%Z -> Utils.lt_int x n = true.
Proof.
  intros Hx Hn. unfold Utils.lt_int. destruct (Qle_bool (inject_Z n) x) eqn:Hle; [|done].
  exfalso. apply Qle_bool_iff in Hle.
  assert (0 < inject_Z n) by (rewrite <- (Zlt_Qlt 0); exact Hn). lra.
Qed.

(** [int(seconds / d)] for whole seconds. *)
Lemma bucket x k d :
  x == inject_Z k -> (0 < d)%Z -> (d <= k < 2 ^ 53)%Z ->
  to_int (div x (of_int d)) = (k / d)%Z.
Proof.
  intros E Hd Hk. unfold div, of_int.
  assert (x / round (inject_Z d) == inject_Z k / inject_Z d) as E2
    by (rewrite round_int by lia; by rewrite E).
  assert (0 <= inject_Z k / inject_Z d) as Hq by (apply truediv_nonneg; lia).
  assert (round (x / round (inject_Z d)) == round (inject_Z k / inject_Z d)) as R
    by (apply round_proper; [by rewrite E2|exact E2]).
  rewrite to_int_floor by (rewrite R; by apply round_nonneg).
  rewrite R, <- to_int_floor by (by apply round_nonneg).
  by apply to_int_quotient.
Qed.

(** X20: when [now] is a valid [datetime] that is [k] whole seconds after a
    timestamp that [strptime] accepts, [get_relative_time] answers by the
    integer quotients of [k]: [just now] below a minute (and for a timestamp
    in the future), then the whole minutes below an hour, the whole hours
    below a day, the whole days below a week, and the whole weeks; the
    roundings of the float divisions never reach the next integer. *)
Theorem get_relative_time_whole_seconds (now dt : PyDatetime.datetime) timestamp k :
  PyDatetime.strptime timestamp = Some dt ->
  PyDatetime.valid now = true ->
  PyDatetime.sub now dt = (k * 1000000)%Z ->
  Utils.get_relative_time now timestamp
  = if (k <? 60)%Z then "just now"
    else if (k <? 3600)%Z then Utils.ago (k / 60) "minute"
    else if (k <? 86400)%Z then Utils.ago (k / 3600) "hour"
    else if (k <? 604800)%Z then Utils.ago (k / 86400) "day"
    else Utils.ago (k / 604800) "week".
Proof.
  intros Hparse Hnow Hdiff.
  pose proof (to_microseconds_range now Hnow) as Hrange.
  pose proof (to_microseconds_range dt (strptime_valid _ _ Hparse)) as Hrange'.
  assert (k < 2 ^ 53)%Z as Hk by (unfold PyDatetime.sub in Hdiff; lia).
  unfold Utils.get_relative_time. rewrite Hparse. cbv zeta. rewrite Hdiff.
  destruct (Z.lt_ge_cases k 0) as [Hpast|Hk0].
  - rewrite lt_int_past by (by apply total_seconds_past || lia).
    by destruct (Z.ltb_spec k 60); [|lia].
  - pose proof (total_seconds_whole k (conj Hk0 Hk)) as E.
    rewrite !(lt_int_whole _ k _ E).
    destruct (Z.ltb_spec k 60); [done|].
    destruct (Z.ltb_spec k 3600); [by rewrite (bucket _ k 60 E) by lia|].
    destruct (Z.ltb_spec k 86400); [by rewrite (bucket _ k 3600 E) by lia|].
    destruct (Z.ltb_spec k 604800); [by rewrite (bucket _ k 86400 E) by lia|].
    by rewrite (bucket _ k 604800 E) by lia.
Qed.

Lemma get_relative_time_whole_seconds_witness :
  Utils.get_relative_time (at_time 12 0 30) "2024-01-03 10:00:00" = "2 days ago".
Proof.
  exact (get_relative_time_whole_seconds (at_time 12 0 30)
           {| PyDatetime.year := 2024; PyDatetime.month := 1; PyDatetime.day := 3;
              PyDatetime.hour := 10; PyDatetime.minute := 0; PyDatetime.second := 0;
              PyDatetime.microsecond := 0 |}
           "2024-01-03 10:00:00" 180030 eq_refl eq_refl eq_refl).
Defined.

End BucketFacts.
